(** * drf_httpsig: the HTTP Signature authenticator of Django REST Framework

    A shallow embedding of [drf_httpsig/authentication.py] and the
    properties of [SignatureAuthentication.authenticate].

    Python values are modelled by [pyval], exceptions by objects in a heap
    (an exception is raised by reference, so that "the same object" has a
    meaning), and the body of [authenticate] by a state-and-exception monad
    that threads the heap of exception objects and emits the trace of the
    interactions with the collaborators ([httpsig], the subclass callbacks,
    the request, the clock).  *)

From Stdlib Require Import ZArith QArith Ascii String List Lia.
From stdpp Require Import base option list gmap strings.

Local Open Scope string_scope.
Local Open Scope Z_scope.

(** ** Python values *)

Module Py.

(** The values that reach [authenticate] from its callbacks: [None], a
    [bool], an [int], a [str]/[bytes], or any other object (a Django user),
    which has neither [__bool__] nor [__len__] and is therefore truthy. *)
Inductive pyval : Type :=
| PyNone
| PyBool (b : bool)
| PyInt (n : Z)
| PyStr (s : string)
| PyObj (oid : nat).

(** Python's truth value testing. *)
Definition truthy (v : pyval) : bool :=
  match v with
  | PyNone => false
  | PyBool b => b
  | PyInt n => negb (n =? 0)
  | PyStr s => negb (String.eqb s EmptyString)
  | PyObj _ => true
  end.

(** [x and y] returns [x] when [x] is falsy, [y] otherwise. *)
Definition py_and (x y : pyval) : pyval := if truthy x then y else x.

(** [str.lower] on one character: only [A]..[Z] change (header values are
    latin-1 text and the scheme token is ASCII). *)
Definition lower_ascii (c : ascii) : ascii :=
  let n := N_of_ascii c in
  if ((65 <=? n) && (n <=? 90))%N then ascii_of_N (n + 32) else c.

Fixpoint lower (s : string) : string :=
  match s with
  | EmptyString => EmptyString
  | String c r => String (lower_ascii c) (lower r)
  end.

(** *** [int(str)]

    Surrounding whitespace is stripped, one sign is allowed, then decimal
    digits, with single underscores allowed between digits.  (The
    interpreters the package names, 3.6 to 3.8, put no limit on the number
    of digits.) *)
Definition is_space (c : ascii) : bool :=
  let n := N_of_ascii c in
  (((9 <=? n) && (n <=? 13)) || ((28 <=? n) && (n <=? 32))
   || (n =? 133) || (n =? 160))%N.

Definition digit_of (c : ascii) : option Z :=
  let n := N_of_ascii c in
  if ((48 <=? n) && (n <=? 57))%N then Some (Z.of_N n - 48) else None.

Fixpoint lstrip (s : list ascii) : list ascii :=
  match s with
  | c :: r => if is_space c then lstrip r else s
  | [] => []
  end.

Definition strip (s : list ascii) : list ascii :=
  rev (lstrip (rev (lstrip s))).

(** [digits acc prev s]: [acc] is the value read so far, [prev] tells
    whether the previous character was a digit (an underscore must stand
    between two digits). *)
Fixpoint digits (acc : Z) (prev : bool) (s : list ascii) : option Z :=
  match s with
  | [] => if prev then Some acc else None
  | c :: r =>
      match digit_of c with
      | Some d => digits (10 * acc + d) true r
      | None =>
          if (Ascii.eqb c "_" && prev)%bool then
            match r with
            | c' :: _ =>
                match digit_of c' with
                | Some _ => digits acc false r
                | None => None
                end
            | [] => None
            end
          else None
      end
  end.

Definition int_of_str (s : string) : option Z :=
  match strip (list_ascii_of_string s) with
  | c :: r =>
      if Ascii.eqb c "-" then Z.opp <$> digits 0 false r
      else if Ascii.eqb c "+" then digits 0 false r
      else digits 0 false (c :: r)
  | [] => None
  end.

End Py.

(** ** Exception objects, the heap and the monad of [authenticate] *)

Module Exc.

Inductive exc_class : Type :=
| AuthenticationFailed
| TypeError
| ValueError
| KeyError
| NotImplementedError
| OtherError (name : string).

#[export] Instance exc_class_eq_dec : EqDecision exc_class.
Proof. solve_decision. Defined.

(** An exception object: its class and its message ([detail] for the
    framework's [AuthenticationFailed]). *)
Record exc_obj : Type := { exc_cls : exc_class; exc_detail : string }.

#[export] Instance exc_obj_eq_dec : EqDecision exc_obj.
Proof. solve_decision. Defined.

(** Objects are identified by their address: their index in the heap. *)
Abbreviation addr := nat.
Abbreviation heap := (list exc_obj).

Inductive result (A : Type) : Type :=
| Ret (a : A)
| Raise (e : addr).
Arguments Ret {A} a.
Arguments Raise {A} e.

(** What a collaborator (library or callback) does when called: it returns
    a value or raises an exception object of its own making. *)
Inductive cb_result (A : Type) : Type :=
| CbRet (a : A)
| CbRaise (e : exc_obj).
Arguments CbRet {A} a.
Arguments CbRaise {A} e.

End Exc.
Export Exc.
Import Py.

(** ** The request and the collaborators *)

(** [request.headers] is Django's case-insensitive mapping: its store is
    keyed by the lower-cased header name, and every access lower-cases the
    name it is given. *)
Record HttpRequest : Type := {
  method : string;
  full_path : string;
  headers : gmap string string;
}.

Definition headers_get (name : string) (r : HttpRequest) : option string :=
  headers r !! lower name.

Definition headers_contains (name : string) (r : HttpRequest) : bool :=
  bool_decide (is_Some (headers r !! lower name)).

(** [rest_framework.authentication.get_authorization_header]: the value of
    the [Authorization] header, the empty byte string when there is none. *)
Definition get_authorization_header (r : HttpRequest) : string :=
  default EmptyString (headers_get "Authorization" r).

(** The [httpsig.HeaderVerifier] object built at lines 95-101: it keeps the
    arguments of its constructor. *)
Record HeaderVerifier : Type := {
  hv_headers : gmap string string;
  hv_secret : pyval;
  hv_required_headers : list string;
  hv_method : string;
  hv_path : string;
}.

(** Everything [authenticate] calls and does not define: the class
    attributes and the two methods a subclass provides, the [httpsig]
    parser and verifier, and the clock.  The parser returns the scheme token
    and a [CaseInsensitiveDict], whose keys are stored lower-cased. *)
Record Env : Type := {
  www_authenticate_realm : string;
  required_headers : list string;
  fetch_user_data : string -> string -> cb_result (pyval * pyval);
  fetch_on_behalf_of_user : string -> cb_result pyval;
  parse_authorization_header : string -> cb_result (string * gmap string string);
  HeaderVerifier_init : HeaderVerifier -> cb_result unit;
  HeaderVerifier_verify : HeaderVerifier -> cb_result bool;
  time_time : Q;
}.

(** The interactions of one run of [authenticate], in the order in which
    they happen. *)
Inductive event : Type :=
| EvParse (header : string)
| EvFetchUserData (keyid algorithm : string)
| EvNewVerifier (hs : HeaderVerifier)
| EvVerify (hs : HeaderVerifier)
| EvExpires (value : option string)
| EvClock
| EvFetchOnBehalfOf (user_id : string).

(** ** The monad: a heap of exception objects is threaded through, events
    are emitted, and a computation returns or raises. *)

Record Out (A : Type) : Type := MkOut {
  out_res : result A;
  out_heap : heap;
  out_trace : list event;
}.
Arguments MkOut {A} _ _ _.
Arguments out_res {A} _.
Arguments out_heap {A} _.
Arguments out_trace {A} _.

Definition M (A : Type) : Type := heap -> Out A.

Definition ret {A} (a : A) : M A := fun h => MkOut (Ret a) h [].

Definition bind {A B} (c : M A) (k : A -> M B) : M B := fun h =>
  match c h with
  | MkOut (Ret a) h1 t1 =>
      match k a h1 with MkOut r h2 t2 => MkOut r h2 (t1 ++ t2) end
  | MkOut (Raise e) h1 t1 => MkOut (Raise e) h1 t1
  end.

#[export] Instance M_ret : MRet M := @ret.
#[export] Instance M_bind : MBind M := fun A B k c => bind c k.

(** [raise obj] for an object that already exists. *)
Definition raise {A} (e : addr) : M A := fun h => MkOut (Raise e) h [].

(** [raise Class(detail)]: the object is built, then raised. *)
Definition raise_new {A} (o : exc_obj) : M A := fun h =>
  MkOut (Raise (length h)) (h ++ [o]) [].

Definition emit (e : event) : M unit := fun h => MkOut (Ret tt) h [e].

(** A call to a collaborator: the event is recorded, and an exception it
    raises becomes a new object of the heap. *)
Definition call {A} (e : event) (r : cb_result A) : M A := fun h =>
  match r with
  | CbRet a => MkOut (Ret a) h [e]
  | CbRaise o => MkOut (Raise (length h)) (h ++ [o]) [e]
  end.

(** [try: c  except cls: handler] *)
Definition try_except {A} (c : M A) (cls : exc_class) (handler : M A) : M A :=
  fun h =>
  match c h with
  | MkOut (Raise e) h1 t1 =>
      match h1 !! e with
      | Some o =>
          if decide (exc_cls o = cls) then
            match handler h1 with MkOut r h2 t2 => MkOut r h2 (t1 ++ t2) end
          else MkOut (Raise e) h1 t1
      | None => MkOut (Raise e) h1 t1
      end
  | o => o
  end.

(** [int(x)] for [x] a [str] or [None]: [None] is a [TypeError], a string
    that is not a number a [ValueError]. *)
Definition type_error_obj : exc_obj :=
  {| exc_cls := TypeError;
     exc_detail := "int() argument must be a string, a bytes-like object or a real number, not 'NoneType'" |}.

Definition value_error_obj : exc_obj :=
  {| exc_cls := ValueError;
     exc_detail := "invalid literal for int() with base 10" |}.

Definition py_int (x : option string) : M Z :=
  match x with
  | None => raise_new type_error_obj
  | Some s =>
      match int_of_str s with
      | Some n => ret n
      | None => raise_new value_error_obj
      end
  end.

(** [d[key]] on a [CaseInsensitiveDict]. *)
Definition getitem (d : gmap string string) (key : string) : M string :=
  match d !! lower key with
  | Some v => ret v
  | None => raise_new {| exc_cls := KeyError; exc_detail := key |}
  end.

(** [x > n] for a float [x] and an int [n]: Python compares the exact
    values. *)
Definition float_gt_int (x : Q) (n : Z) : bool := negb (Qle_bool x (inject_Z n)).

(** ** The module *)

(** Line 21: [FAILED = exceptions.AuthenticationFailed("Invalid signature.")].
    Loading the module allocates the object; [FAILED] is its address. *)
Definition failed_obj : exc_obj :=
  {| exc_cls := AuthenticationFailed; exc_detail := "Invalid signature." |}.

Definition module_heap : heap := [failed_obj].

Definition FAILED : addr := 0%nat.

(** Line 119: the one other exception the module makes. *)
Definition not_found_obj : exc_obj :=
  {| exc_cls := AuthenticationFailed;
     exc_detail := "On behalf of user was not found." |}.

Definition required_fields : gset string :=
  {[ "keyid"; "algorithm"; "signature" ]}.

(** [authenticate] returns [None] or a pair [(user, auth)], where [auth] is
    the key identifier or [None]. *)
Abbreviation verdict := (option (pyval * option string)).

(** The double quote character, as a string. *)
Definition dquote : string := String (ascii_of_nat 34) EmptyString.

Section SignatureAuthentication.

Variable self : Env.

(** Lines 52-58. *)
Definition authenticate_header (request : HttpRequest) : string :=
  let h := String.concat " " (required_headers self) in
  "Signature realm=" ++ dquote ++ www_authenticate_realm self ++ dquote
  ++ ",headers=" ++ dquote ++ h ++ dquote.

(** Lines 108-114: the [(expires)] pseudo-header.  [int] raises
    [TypeError] on [None] and [ValueError] on a string that is not a number;
    the handler catches [TypeError] only.  The clock is read only when
    [expires] is truthy ([and] does not evaluate its right operand
    otherwise). *)
Definition check_expires (request : HttpRequest) : M unit :=
  let expires := headers_get "(expires)" request in
  _ ← emit (EvExpires expires);
  expires ← try_except (n ← py_int expires; mret (Some n)) TypeError (mret None);
  expired ← match expires with
            | Some n =>
                if truthy (PyInt n) then
                  _ ← emit EvClock; mret (float_gt_int (time_time self) n)
                else mret false
            | None => mret false
            end;
  if expired : bool then raise FAILED else mret tt.

(** Lines 116-122: impersonation, then the verdict. *)
Definition on_behalf_of (request : HttpRequest) (user : pyval)
    (fields : gmap string string) : M verdict :=
  if headers_contains "On-Behalf-Of" request then
    user_id ← match headers_get "On-Behalf-Of" request with
              | Some v => mret v
              | None => raise_new {| exc_cls := KeyError; exc_detail := "On-Behalf-Of" |}
              end;
    user ← call (EvFetchOnBehalfOf user_id) (fetch_on_behalf_of_user self user_id);
    if negb (truthy user) then
      raise_new not_found_obj
    else mret (Some (user, None))
  else
    keyid ← getitem fields "keyid";
    mret (Some (user, Some keyid)).

(** Lines 60-122. *)
Definition authenticate (request : HttpRequest) : M verdict :=
  let auth_header := get_authorization_header request in
  if String.eqb auth_header EmptyString then mret None else
  '(method_, fields) ← call (EvParse auth_header)
                            (parse_authorization_header self auth_header);
  (* Ignore foreign Authorization headers. *)
  if negb (String.eqb (lower method_) "signature") then mret None else
  (* Verify basic header structure. *)
  if (size fields =? 0)%nat then raise FAILED else
  (* Ensure all required fields were included. *)
  if (0 <? size (required_fields ∖ dom fields))%nat then raise FAILED else
  (* Fetch the secret associated with the keyid *)
  keyid ← getitem fields "keyid";
  algorithm ← getitem fields "algorithm";
  '(user, secret) ← call (EvFetchUserData keyid algorithm)
                         (fetch_user_data self keyid algorithm);
  if negb (truthy (py_and user secret)) then raise FAILED else
  (* Verify headers *)
  let hs := {| hv_headers := headers request;
               hv_secret := secret;
               hv_required_headers := required_headers self;
               hv_method := lower (method request);
               hv_path := full_path request |} in
  _ ← call (EvNewVerifier hs) (HeaderVerifier_init self hs);
  ok ← call (EvVerify hs) (HeaderVerifier_verify self hs);
  if negb ok then raise FAILED else
  (* Check if the signature is expired *)
  _ ← check_expires request;
  on_behalf_of request user fields.

End SignatureAuthentication.

(** ** The environment of [tests.py]

    A parser that follows [httpsig.utils.parse_authorization_header] (the
    header is split at the first space, the rest is cut into items by
    [urllib]'s [parse_http_list], every [key=value] item is stored under the
    lower-cased key), the subclass [APISignatureAuthentication], and a
    verifier and a clock that the caller chooses.  The theorems below hold
    for every environment; this one provides concrete runs. *)

Module Tests.

Definition KEYID : string := "some-key".
Definition SECRET : string := "my secret string".
Definition test_user : pyval := PyObj 1.

Definition quoted (s : string) : string := dquote ++ s ++ dquote.

Definition build_signature (hdrs : list string) (key_id signature : string) : string :=
  "Signature keyId=" ++ quoted key_id ++ ",algorithm=" ++ quoted "hmac-sha256"
  ++ ",headers=" ++ quoted (String.concat " " hdrs)
  ++ ",signature=" ++ quoted signature.

(** The loop of [parse_http_list]: [res] and [part] are kept reversed. *)
Fixpoint http_list_loop (s : list ascii) (res : list (list ascii))
    (part : list ascii) (escape quote : bool) : list (list ascii) :=
  match s with
  | [] => rev (match part with [] => res | _ => part :: res end)
  | cur :: r =>
      if escape then http_list_loop r res (cur :: part) false quote
      else if quote then
        if Ascii.eqb cur "\" then http_list_loop r res part true quote
        else http_list_loop r res (cur :: part) false (negb (Ascii.eqb cur (ascii_of_nat 34)))
      else if Ascii.eqb cur "," then http_list_loop r (part :: res) [] false false
      else http_list_loop r res (cur :: part) false (Ascii.eqb cur (ascii_of_nat 34))
  end.

Definition parse_http_list (s : list ascii) : list (list ascii) :=
  (fun p => strip (rev p)) <$> http_list_loop s [] [] false false.

(** [s.split(sep, 1)] for a one-character separator: the text before the
    first [sep] and, when there is one, the text after it. *)
Fixpoint split1 (sep : ascii) (s : list ascii) : list ascii * option (list ascii) :=
  match s with
  | [] => ([], None)
  | c :: r =>
      if Ascii.eqb c sep then ([], Some r)
      else let '(a, b) := split1 sep r in (c :: a, b)
  end.

Definition unquote (value : list ascii) : list ascii :=
  match value with
  | c :: r => if Ascii.eqb c (ascii_of_nat 34) then removelast r else value
  | [] => []
  end.

Definition add_item (values : gmap string string) (item : list ascii)
    : gmap string string :=
  match split1 "=" item with
  | (key, Some value) =>
      match key, value with
      | _ :: _, _ :: _ =>
          <[ lower (string_of_list_ascii key) := string_of_list_ascii (unquote value) ]> values
      | _, _ => values
      end
  | (_, None) => values
  end.

Definition parse (header : string) : cb_result (string * gmap string string) :=
  match split1 " " (list_ascii_of_string header) with
  | (scheme, Some rest) =>
      CbRet (string_of_list_ascii scheme, foldl add_item ∅ (parse_http_list rest))
  | (scheme, None) => CbRet (string_of_list_ascii scheme, ∅)
  end.

(** [APISignatureAuthentication.fetch_user_data] of [tests.py]. *)
Definition api_fetch_user_data (keyid algorithm : string) : cb_result (pyval * pyval) :=
  if negb (String.eqb keyid KEYID) then
    CbRaise {| exc_cls := AuthenticationFailed; exc_detail := "Bad key ID" |}
  else CbRet (test_user, PyStr SECRET).

Definition api (verify : HeaderVerifier -> cb_result bool)
    (obo : string -> cb_result pyval) (now : Q) : Env :=
  {| www_authenticate_realm := "api";
     required_headers := ["(request-target)"; "date"];
     fetch_user_data := api_fetch_user_data;
     fetch_on_behalf_of_user := obo;
     parse_authorization_header := parse;
     HeaderVerifier_init := fun _ => CbRet tt;
     HeaderVerifier_verify := verify;
     time_time := now |}.

(** The request of [test_valid_signature], with further headers. *)
Definition get_measures (authorization : string) (extra : list (string * string))
    : HttpRequest :=
  {| method := "GET";
     full_path := "/packages/measures/";
     headers := list_to_map
       (extra ++ [("host", "localhost:8000");
                  ("date", "Mon, 17 Feb 2014 06:11:05 GMT");
                  ("accept", "application/json");
                  ("authorization", authorization)]) |}.

Definition valid_authorization : string :=
  build_signature ["(request-target)"; "accept"; "date"; "host"] KEYID
    "SelruOP39OWoJrSopfYJ99zOLoswmpyGXyDPdebeELc=".

End Tests.

(** ** How far a run gets

    The values a run of [authenticate] has in hand when it passes a given
    line, and the conditions on the request and on the collaborators under
    which it gets there. *)

Record Stage : Type := {
  st_scheme : string;
  st_fields : gmap string string;
  st_keyid : string;
  st_algorithm : string;
  st_signature : string;
  st_user : pyval;
  st_secret : pyval;
}.

Section Stages.

Variable self : Env.
Variable request : HttpRequest.

(** Line 78 is reached: there is a header and its scheme is [Signature]. *)
Definition signature_scheme (s : Stage) : Prop :=
  get_authorization_header request ≠ EmptyString
  ∧ parse_authorization_header self (get_authorization_header request)
    = CbRet (st_scheme s, st_fields s)
  ∧ lower (st_scheme s) = "signature".

(** The three required parameters are there. *)
Definition required_present (s : Stage) : Prop :=
  st_fields s !! "keyid" = Some (st_keyid s)
  ∧ st_fields s !! "algorithm" = Some (st_algorithm s)
  ∧ st_fields s !! "signature" = Some (st_signature s).

(** Line 91 is reached: the credential lookup returned a pair. *)
Definition looked_up (s : Stage) : Prop :=
  signature_scheme s ∧ required_present s
  ∧ fetch_user_data self (st_keyid s) (st_algorithm s)
    = CbRet (st_user s, st_secret s).

Definition verifier_of (s : Stage) : HeaderVerifier :=
  {| hv_headers := headers request;
     hv_secret := st_secret s;
     hv_required_headers := required_headers self;
     hv_method := lower (method request);
     hv_path := full_path request |}.

(** Line 104 is reached: both halves of the pair are truthy and the
    verifier was built. *)
Definition verifier_built (s : Stage) : Prop :=
  looked_up s
  ∧ truthy (st_user s) = true ∧ truthy (st_secret s) = true
  ∧ HeaderVerifier_init self (verifier_of s) = CbRet tt.

(** Line 108 is reached: the signature was verified. *)
Definition verified (s : Stage) : Prop :=
  verifier_built s
  ∧ HeaderVerifier_verify self (verifier_of s) = CbRet true.

(** The events of a run up to line 91, line 104 and line 108. *)
Definition trace_lookup (s : Stage) : list event :=
  [EvParse (get_authorization_header request);
   EvFetchUserData (st_keyid s) (st_algorithm s)].

Definition trace_verify (s : Stage) : list event :=
  trace_lookup s ++ [EvNewVerifier (verifier_of s); EvVerify (verifier_of s)].

End Stages.

(** [prepend t o]: the outcome [o] after the events [t]. *)
Definition prepend {A} (t : list event) (o : Out A) : Out A :=
  MkOut (out_res o) (out_heap o) (t ++ out_trace o).

(** A heap in which the module has been loaded. *)
Definition loaded (h : heap) : Prop := h !! FAILED = Some failed_obj.

(** The events of the expiry check. *)
Definition is_expiry_event (e : event) : bool :=
  match e with
  | EvExpires _ | EvClock => true
  | _ => false
  end.

Definition no_expiry_event (t : list event) : Prop :=
  Forall (λ e, is_expiry_event e = false) t.

(** ** The situations the specification names *)

(** No credential is presented: there is no [Authorization] header, or it
    is empty, or its scheme is not [Signature]. *)
Inductive no_credential (self : Env) (request : HttpRequest) : Prop :=
| header_absent :
    headers_get "Authorization" request = None →
    no_credential self request
| header_empty :
    headers_get "Authorization" request = Some EmptyString →
    no_credential self request
| header_foreign (scheme : string) (fields : gmap string string) :
    get_authorization_header request ≠ EmptyString →
    parse_authorization_header self (get_authorization_header request)
    = CbRet (scheme, fields) →
    lower scheme ≠ "signature" →
    no_credential self request.

(** The parameter mapping is empty or lacks a required key. *)
Inductive malformed (fields : gmap string string) : Prop :=
| fields_empty : fields = ∅ → malformed fields
| field_missing (key : string) :
    key ∈ required_fields → fields !! key = None → malformed fields.

(** The signature is expired: [(expires)] is a number, truthy, and the
    clock is past it. *)
Definition expired (self : Env) (request : HttpRequest) (v : string) (n : Z)
    : Prop :=
  headers_get "(expires)" request = Some v
  ∧ int_of_str v = Some n
  ∧ n ≠ 0
  ∧ (inject_Z n < time_time self)%Q.

(** The causes of the generic rejection. *)
Inductive generic_cause (self : Env) (request : HttpRequest) (s : Stage) : Prop :=
| cause_malformed :
    signature_scheme self request s → malformed (st_fields s) →
    generic_cause self request s
| cause_lookup :
    looked_up self request s →
    truthy (st_user s) = false ∨ truthy (st_secret s) = false →
    generic_cause self request s
| cause_signature :
    verifier_built self request s →
    HeaderVerifier_verify self (verifier_of self request s) = CbRet false →
    generic_cause self request s
| cause_expired (v : string) (n : Z) :
    verified self request s → expired self request v n →
    generic_cause self request s.

(** A collaborator raises [e] when the run that starts in heap [h] calls
    it. *)
Inductive collaborator_raises (self : Env) (request : HttpRequest) (h : heap)
    (s : Stage) (e : exc_obj) : Prop :=
| lookup_raises :
    signature_scheme self request s → required_present s →
    fetch_user_data self (st_keyid s) (st_algorithm s) = CbRaise e →
    collaborator_raises self request h s e
| verifier_raises :
    looked_up self request s →
    truthy (st_user s) = true → truthy (st_secret s) = true →
    HeaderVerifier_init self (verifier_of self request s) = CbRaise e →
    collaborator_raises self request h s e
| verify_raises :
    verifier_built self request s →
    HeaderVerifier_verify self (verifier_of self request s) = CbRaise e →
    collaborator_raises self request h s e
| impersonation_raises (user_id : string) :
    verified self request s →
    out_res (check_expires self request h) = Ret tt →
    headers_get "On-Behalf-Of" request = Some user_id →
    fetch_on_behalf_of_user self user_id = CbRaise e →
    collaborator_raises self request h s e.

(** ** Concrete runs in the environment of [tests.py] *)

Module Runs.
Import Tests.

(** 2020-02-15 00:00:00 UTC, the frozen time of [test_expired_signature]. *)
Definition frozen : Z := 1581724800.

Definition accept (_ : HeaderVerifier) : cb_result bool := CbRet true.
Definition refuse (_ : HeaderVerifier) : cb_result bool := CbRet false.
Definition find_user (_ : string) : cb_result pyval := CbRet test_user.
Definition find_nobody (_ : string) : cb_result pyval := CbRet PyNone.

Definition env : Env := api accept find_user (inject_Z frozen).

(** The same subclass with an impersonation lookup that finds nobody. *)
Definition lonely_env : Env := api accept find_nobody (inject_Z frozen).

Definition valid_fields : gmap string string :=
  list_to_map [("keyid", KEYID); ("algorithm", "hmac-sha256");
               ("headers", "(request-target) accept date host");
               ("signature", "SelruOP39OWoJrSopfYJ99zOLoswmpyGXyDPdebeELc=")].

Definition valid_stage : Stage :=
  {| st_scheme := "Signature";
     st_fields := valid_fields;
     st_keyid := KEYID;
     st_algorithm := "hmac-sha256";
     st_signature := "SelruOP39OWoJrSopfYJ99zOLoswmpyGXyDPdebeELc=";
     st_user := test_user;
     st_secret := PyStr SECRET |}.

Definition valid_request : HttpRequest := get_measures valid_authorization [].

(** [test_expired_signature]: [(expires)] is 2020-01-01. *)
Definition expired_request : HttpRequest :=
  get_measures valid_authorization [("(expires)", "1577847600")].

Definition expires_now_request : HttpRequest :=
  get_measures valid_authorization [("(expires)", "1581724800")].

Definition expires_zero_request : HttpRequest :=
  get_measures valid_authorization [("(expires)", "0")].

Definition expires_text_request : HttpRequest :=
  get_measures valid_authorization [("(expires)", "tomorrow")].

Definition on_behalf_request : HttpRequest :=
  get_measures valid_authorization [("on-behalf-of", "42")].

(** [test_foreign_authorization] and [test_bad_signature_2]. *)
Definition foreign_request : HttpRequest :=
  get_measures "NotSignature some-relevant-argument" [].

Definition no_algorithm_request : HttpRequest :=
  get_measures "Signature keyId=foobar,signature=nope" [].

Definition no_algorithm_stage : Stage :=
  {| st_scheme := "Signature";
     st_fields := list_to_map [("keyid", "foobar"); ("signature", "nope")];
     st_keyid := "foobar";
     st_algorithm := EmptyString;
     st_signature := "nope";
     st_user := PyNone;
     st_secret := PyNone |}.

(** A key identifier that [fetch_user_data] of [tests.py] does not know. *)
Definition other_key_authorization : string :=
  build_signature ["(request-target)"; "accept"; "date"; "host"] "other-key"
    "SelruOP39OWoJrSopfYJ99zOLoswmpyGXyDPdebeELc=".

Definition other_key_request : HttpRequest :=
  get_measures other_key_authorization [].

Definition other_key_stage : Stage :=
  {| st_scheme := "Signature";
     st_fields := <[ "keyid" := "other-key" ]> valid_fields;
     st_keyid := "other-key";
     st_algorithm := "hmac-sha256";
     st_signature := "SelruOP39OWoJrSopfYJ99zOLoswmpyGXyDPdebeELc=";
     st_user := PyNone;
     st_secret := PyNone |}.

Definition bad_key_obj : exc_obj :=
  {| exc_cls := AuthenticationFailed; exc_detail := "Bad key ID" |}.

(** A subclass whose lookup knows nobody: it returns [(None, None)], as the
    docstring of [fetch_user_data] has it. *)
Definition nobody_env : Env :=
  {| www_authenticate_realm := "api";
     required_headers := ["(request-target)"; "date"];
     fetch_user_data := fun _ _ => CbRet (PyNone, PyNone);
     fetch_on_behalf_of_user := find_user;
     parse_authorization_header := parse;
     HeaderVerifier_init := fun _ => CbRet tt;
     HeaderVerifier_verify := accept;
     time_time := inject_Z frozen |}.

Definition nobody_stage : Stage :=
  {| st_scheme := "Signature";
     st_fields := valid_fields;
     st_keyid := KEYID;
     st_algorithm := "hmac-sha256";
     st_signature := "SelruOP39OWoJrSopfYJ99zOLoswmpyGXyDPdebeELc=";
     st_user := PyNone;
     st_secret := PyNone |}.

End Runs.

(** ** The base class and the whole of a run *)

(** Lines 44-50: the two methods as the base class has them; a subclass
    is meant to replace them. *)
Definition not_implemented_obj : exc_obj :=
  {| exc_cls := NotImplementedError; exc_detail := EmptyString |}.

Definition base_fetch_user_data (keyId algorithm : string)
    : cb_result (pyval * pyval) :=
  CbRaise not_implemented_obj.

Definition base_fetch_on_behalf_of_user (user_id : string) : cb_result pyval :=
  CbRaise not_implemented_obj.

(** The [(expires)] pseudo-header does not stop the run: it is absent, or
    it reads as zero, or it is a number that the clock has not passed. *)
Inductive not_expired (self : Env) (request : HttpRequest) : Prop :=
| expires_absent :
    headers_get "(expires)" request = None →
    not_expired self request
| expires_zero (v : string) :
    headers_get "(expires)" request = Some v →
    int_of_str v = Some 0 →
    not_expired self request
| expires_ahead (v : string) (n : Z) :
    headers_get "(expires)" request = Some v →
    int_of_str v = Some n →
    (time_time self <= inject_Z n)%Q →
    not_expired self request.

(** The ways through [authenticate]: one constructor for each place where
    a run started in heap [h] ends, with the conditions that lead there and
    the outcome. *)
Inductive path (self : Env) (request : HttpRequest) (h : heap)
    : Out verdict → Prop :=
| path_no_header :
    get_authorization_header request = EmptyString →
    path self request h (MkOut (Ret None) h [])
| path_parse_raises (e : exc_obj) :
    get_authorization_header request ≠ EmptyString →
    parse_authorization_header self (get_authorization_header request)
    = CbRaise e →
    path self request h
      (MkOut (Raise (length h)) (h ++ [e])
         [EvParse (get_authorization_header request)])
| path_foreign (scheme : string) (fields : gmap string string) :
    get_authorization_header request ≠ EmptyString →
    parse_authorization_header self (get_authorization_header request)
    = CbRet (scheme, fields) →
    lower scheme ≠ "signature" →
    path self request h
      (MkOut (Ret None) h [EvParse (get_authorization_header request)])
| path_malformed (s : Stage) :
    signature_scheme self request s →
    ¬ required_fields ⊆ dom (st_fields s) →
    path self request h
      (MkOut (Raise FAILED) h [EvParse (get_authorization_header request)])
| path_lookup_raises (s : Stage) (e : exc_obj) :
    signature_scheme self request s →
    required_present s →
    fetch_user_data self (st_keyid s) (st_algorithm s) = CbRaise e →
    path self request h
      (MkOut (Raise (length h)) (h ++ [e]) (trace_lookup request s))
| path_falsy (s : Stage) :
    looked_up self request s →
    truthy (st_user s) && truthy (st_secret s) = false →
    path self request h (MkOut (Raise FAILED) h (trace_lookup request s))
| path_verifier_raises (s : Stage) (e : exc_obj) :
    looked_up self request s →
    truthy (st_user s) = true → truthy (st_secret s) = true →
    HeaderVerifier_init self (verifier_of self request s) = CbRaise e →
    path self request h
      (MkOut (Raise (length h)) (h ++ [e])
         (trace_lookup request s
          ++ [EvNewVerifier (verifier_of self request s)])%list)
| path_verify_raises (s : Stage) (e : exc_obj) :
    verifier_built self request s →
    HeaderVerifier_verify self (verifier_of self request s) = CbRaise e →
    path self request h
      (MkOut (Raise (length h)) (h ++ [e]) (trace_verify self request s))
| path_verify_false (s : Stage) :
    verifier_built self request s →
    HeaderVerifier_verify self (verifier_of self request s) = CbRet false →
    path self request h
      (MkOut (Raise FAILED) h (trace_verify self request s))
| path_not_a_number (s : Stage) (v : string) :
    verified self request s →
    headers_get "(expires)" request = Some v →
    int_of_str v = None →
    path self request h
      (MkOut (Raise (length h)) (h ++ [value_error_obj])
         (trace_verify self request s ++ [EvExpires (Some v)])%list)
| path_expired (s : Stage) (v : string) (n : Z) :
    verified self request s →
    expired self request v n →
    path self request h
      (MkOut (Raise FAILED) h
         (trace_verify self request s ++ [EvExpires (Some v); EvClock])%list)
| path_authenticated (s : Stage) (h1 : heap) (t1 : list event) :
    verified self request s →
    check_expires self request h = MkOut (Ret tt) h1 t1 →
    headers_get "On-Behalf-Of" request = None →
    path self request h
      (MkOut (Ret (Some (st_user s, Some (st_keyid s)))) h1
         (trace_verify self request s ++ t1)%list)
| path_impersonated (s : Stage) (h1 : heap) (t1 : list event)
    (user_id : string) (u : pyval) :
    verified self request s →
    check_expires self request h = MkOut (Ret tt) h1 t1 →
    headers_get "On-Behalf-Of" request = Some user_id →
    fetch_on_behalf_of_user self user_id = CbRet u →
    truthy u = true →
    path self request h
      (MkOut (Ret (Some (u, None))) h1
         (trace_verify self request s ++ t1 ++ [EvFetchOnBehalfOf user_id])%list)
| path_nobody (s : Stage) (h1 : heap) (t1 : list event)
    (user_id : string) (u : pyval) :
    verified self request s →
    check_expires self request h = MkOut (Ret tt) h1 t1 →
    headers_get "On-Behalf-Of" request = Some user_id →
    fetch_on_behalf_of_user self user_id = CbRet u →
    truthy u = false →
    path self request h
      (MkOut (Raise (length h1)) (h1 ++ [not_found_obj])
         (trace_verify self request s ++ t1 ++ [EvFetchOnBehalfOf user_id])%list)
| path_impersonation_raises (s : Stage) (h1 : heap) (t1 : list event)
    (user_id : string) (e : exc_obj) :
    verified self request s →
    check_expires self request h = MkOut (Ret tt) h1 t1 →
    headers_get "On-Behalf-Of" request = Some user_id →
    fetch_on_behalf_of_user self user_id = CbRaise e →
    path self request h
      (MkOut (Raise (length h1)) (h1 ++ [e])
         (trace_verify self request s ++ t1 ++ [EvFetchOnBehalfOf user_id])%list).

(** The place of an event in the sequence of the steps of
    [authenticate]. *)
Definition rank (e : event) : nat :=
  match e with
  | EvParse _ => 0
  | EvFetchUserData _ _ => 1
  | EvNewVerifier _ => 2
  | EvVerify _ => 3
  | EvExpires _ => 4
  | EvClock => 5
  | EvFetchOnBehalfOf _ => 6
  end.

(** [ascending l]: every number of [l] is less than the next. *)
Fixpoint ascending (l : list nat) : bool :=
  match l with
  | x :: ((y :: _) as r) => (x <? y)%nat && ascending r
  | _ => true
  end.

(** ** The challenge of [authenticate_header] *)

(** [occurs c s]: the character [c] is in [s]. *)
Fixpoint occurs (c : ascii) (s : string) : bool :=
  match s with
  | EmptyString => false
  | String c' r => Ascii.eqb c c' || occurs c r
  end.

(** A header name that the challenge can carry: not empty, without a space
    and without a double quote. *)
Definition header_token (s : string) : Prop :=
  s ≠ EmptyString
  ∧ occurs " " s = false
  ∧ occurs (ascii_of_nat 34) s = false.

(** ** More runs *)

Module MoreRuns.
Import Tests.

(** The class itself, not subclassed, with the parser of [Tests], a
    verifier that accepts and the frozen clock. *)
Definition base_env : Env :=
  {| www_authenticate_realm := "api";
     required_headers := ["(request-target)"; "date"];
     fetch_user_data := base_fetch_user_data;
     fetch_on_behalf_of_user := base_fetch_on_behalf_of_user;
     parse_authorization_header := parse;
     HeaderVerifier_init := fun _ => CbRet tt;
     HeaderVerifier_verify := Runs.accept;
     time_time := inject_Z Runs.frozen |}.

(** A subclass that provides the credential lookup only. *)
Definition half_env : Env :=
  api Runs.accept base_fetch_on_behalf_of_user (inject_Z Runs.frozen).

(** A parser that fails on every header, as [httpsig]'s does on bytes that
    are not ASCII. *)
Definition decode_error_obj : exc_obj :=
  {| exc_cls := OtherError "UnicodeDecodeError";
     exc_detail := "'ascii' codec can't decode byte" |}.

Definition deaf_env : Env :=
  {| www_authenticate_realm := "api";
     required_headers := ["(request-target)"; "date"];
     fetch_user_data := api_fetch_user_data;
     fetch_on_behalf_of_user := Runs.find_user;
     parse_authorization_header := fun _ => CbRaise decode_error_obj;
     HeaderVerifier_init := fun _ => CbRet tt;
     HeaderVerifier_verify := Runs.accept;
     time_time := inject_Z Runs.frozen |}.

(** [(expires)] one hour after the frozen time. *)
Definition expires_later_request : HttpRequest :=
  get_measures valid_authorization [("(expires)", "1581728400")].

End MoreRuns.

(** * Properties *)

(** ** Equations of the monad *)

Lemma bind_eq {A B} (c : M A) (k : A → M B) (h : heap) :
  (c ≫= k) h =
  match c h with
  | MkOut (Ret a) h1 t1 => prepend t1 (k a h1)
  | MkOut (Raise e) h1 t1 => MkOut (Raise e) h1 t1
  end.
Proof.
  unfold mbind, M_bind, bind, prepend.
  destruct (c h) as [[a|e] h1 t1]; [destruct (k a h1)|]; reflexivity.
Qed.

Lemma prepend_nil {A} (o : Out A) : prepend [] o = o.
Proof. by destruct o. Qed.

Lemma prepend_prepend {A} (t1 t2 : list event) (o : Out A) :
  prepend t1 (prepend t2 o) = prepend (t1 ++ t2) o.
Proof. unfold prepend; simpl. by rewrite app_assoc. Qed.

Lemma loaded_app (h : heap) (o : exc_obj) : loaded h → loaded (h ++ [o]).
Proof. unfold loaded. intros H. by apply lookup_app_l_Some. Qed.

(** An object made after the module was loaded is not [FAILED]. *)
Lemma loaded_fresh (h : heap) : loaded h → length h ≠ FAILED.
Proof.
  unfold loaded, FAILED. intros H Hl.
  apply lookup_lt_Some in H. lia.
Qed.

(** ** The parameter check of lines 79-84 *)

Lemma elem_of_required_fields (x : string) :
  x ∈ required_fields ↔ x = "keyid" ∨ x = "algorithm" ∨ x = "signature".
Proof.
  unfold required_fields.
  rewrite !elem_of_union, !elem_of_singleton. tauto.
Qed.

Lemma required_present_checks (fields : gmap string string) :
  required_fields ⊆ dom fields →
  (size fields =? 0)%nat = false
  ∧ (0 <? size (required_fields ∖ dom fields))%nat = false.
Proof.
  intros Hsub. split.
  - apply Nat.eqb_neq. apply map_size_non_empty_iff. intros ->.
    rewrite dom_empty_L in Hsub.
    apply (not_elem_of_empty (C := gset string) "keyid"), Hsub.
    apply elem_of_required_fields. by left.
  - apply Nat.ltb_ge.
    assert (required_fields ∖ dom fields = ∅) as ->.
    { apply set_eq. intros x. rewrite elem_of_difference.
      split; [intros [Hx Hn]; destruct Hn; by apply Hsub|].
      intros Hx. by apply not_elem_of_empty in Hx. }
    by rewrite size_empty.
Qed.

Lemma required_missing_checks (fields : gmap string string) :
  ¬ required_fields ⊆ dom fields →
  (0 <? size (required_fields ∖ dom fields))%nat = true.
Proof.
  intros Hsub. apply Nat.ltb_lt.
  destruct (decide (size (required_fields ∖ dom fields) = 0)%nat) as [H0|]; [|lia].
  apply size_empty_iff in H0. exfalso. apply Hsub.
  intros x Hx. destruct (decide (x ∈ dom fields)) as [|Hn]; [done|].
  exfalso. apply (not_elem_of_empty (C := gset string) x), H0.
  by apply elem_of_difference.
Qed.

Lemma required_present_dom (s : Stage) :
  required_present s → required_fields ⊆ dom (st_fields s).
Proof.
  intros (Hk & Ha & Hs) x Hx. apply elem_of_dom.
  apply elem_of_required_fields in Hx.
  destruct Hx as [-> | [-> | ->]]; eauto.
Qed.

(** ** The run of [authenticate], stage by stage *)

Section Run.

Variable self : Env.
Variable request : HttpRequest.
Variable h : heap.

Lemma String_eqb_false (a b : string) : a ≠ b → String.eqb a b = false.
Proof. intros H. by apply String.eqb_neq. Qed.

Lemma authenticate_no_header :
  get_authorization_header request = EmptyString →
  authenticate self request h = MkOut (Ret None) h [].
Proof. intros H. unfold authenticate. by rewrite H. Qed.

Lemma authenticate_parse_raises (e : exc_obj) :
  get_authorization_header request ≠ EmptyString →
  parse_authorization_header self (get_authorization_header request) = CbRaise e →
  authenticate self request h
  = MkOut (Raise (length h)) (h ++ [e]) [EvParse (get_authorization_header request)].
Proof.
  intros Hne Hp. unfold authenticate.
  rewrite (String_eqb_false _ _ Hne), bind_eq. unfold call. by rewrite Hp.
Qed.

Lemma authenticate_foreign (scheme : string) (fields : gmap string string) :
  get_authorization_header request ≠ EmptyString →
  parse_authorization_header self (get_authorization_header request)
  = CbRet (scheme, fields) →
  lower scheme ≠ "signature" →
  authenticate self request h
  = MkOut (Ret None) h [EvParse (get_authorization_header request)].
Proof.
  intros Hne Hp Hs. unfold authenticate.
  rewrite (String_eqb_false _ _ Hne), bind_eq. unfold call. rewrite Hp.
  rewrite (String_eqb_false _ _ Hs). reflexivity.
Qed.

Lemma authenticate_malformed (s : Stage) :
  signature_scheme self request s →
  ¬ required_fields ⊆ dom (st_fields s) →
  authenticate self request h
  = MkOut (Raise FAILED) h [EvParse (get_authorization_header request)].
Proof.
  intros (Hne & Hp & Hs) Hmiss. unfold authenticate.
  rewrite (String_eqb_false _ _ Hne), bind_eq. unfold call. rewrite Hp, Hs.
  simpl. rewrite (required_missing_checks _ Hmiss).
  by destruct (size (st_fields s) =? 0)%nat.
Qed.

(** The common beginning of the runs that reach the credential lookup. *)
Ltac to_lookup Hsch Hreq :=
  let Hne := fresh in let Hp := fresh in let Hs := fresh in
  let Hk := fresh in let Ha := fresh in let Hg := fresh in
  let Hc := fresh in
  pose proof Hsch as (Hne & Hp & Hs);
  pose proof Hreq as (Hk & Ha & Hg);
  pose proof (required_present_checks _ (required_present_dom _ Hreq)) as [Hc ?];
  unfold authenticate;
  rewrite (String_eqb_false _ _ Hne), bind_eq; unfold call at 1; rewrite Hp, Hs;
  cbn [negb String.eqb Ascii.eqb Bool.eqb]; cbv iota;
  rewrite Hc; repeat match goal with H : (0 <? _)%nat = false |- _ => rewrite H end;
  rewrite bind_eq; unfold getitem at 1;
  change (lower "keyid") with "keyid"; rewrite Hk; unfold ret at 1;
  rewrite bind_eq; unfold getitem at 1;
  change (lower "algorithm") with "algorithm"; rewrite Ha; unfold ret at 1;
  rewrite bind_eq; unfold call at 1.

Lemma truthy_and (x y : pyval) :
  truthy (py_and x y) = truthy x && truthy y.
Proof. unfold py_and. by destruct (truthy x) eqn:E. Qed.

Lemma authenticate_fetch_raises (s : Stage) (e : exc_obj) :
  signature_scheme self request s →
  required_present s →
  fetch_user_data self (st_keyid s) (st_algorithm s) = CbRaise e →
  authenticate self request h
  = MkOut (Raise (length h)) (h ++ [e]) (trace_lookup request s).
Proof.
  intros Hsch Hreq Hf. to_lookup Hsch Hreq. by rewrite Hf.
Qed.

Lemma authenticate_falsy (s : Stage) :
  looked_up self request s →
  truthy (st_user s) && truthy (st_secret s) = false →
  authenticate self request h
  = MkOut (Raise FAILED) h (trace_lookup request s).
Proof.
  intros (Hsch & Hreq & Hf) Ht. to_lookup Hsch Hreq.
  rewrite Hf, !prepend_nil. cbv iota beta. by rewrite truthy_and, Ht.
Qed.

(** The common beginning of the runs that build the verifier. *)
Ltac to_verifier s Hlook Hu Hs :=
  let Hsch := fresh in let Hreq := fresh in let Hf := fresh in
  pose proof Hlook as (Hsch & Hreq & Hf);
  to_lookup Hsch Hreq;
  rewrite Hf, !prepend_nil; cbv iota beta;
  rewrite truthy_and, Hu, Hs; cbn [andb negb];
  fold (verifier_of self request s);
  rewrite bind_eq; unfold call at 1.

Lemma authenticate_init_raises (s : Stage) (e : exc_obj) :
  looked_up self request s →
  truthy (st_user s) = true → truthy (st_secret s) = true →
  HeaderVerifier_init self (verifier_of self request s) = CbRaise e →
  authenticate self request h
  = MkOut (Raise (length h)) (h ++ [e])
      (trace_lookup request s ++ [EvNewVerifier (verifier_of self request s)]).
Proof.
  intros Hlook Hu Hs Hi. to_verifier s Hlook Hu Hs. by rewrite Hi.
Qed.

Lemma authenticate_verify_raises (s : Stage) (e : exc_obj) :
  verifier_built self request s →
  HeaderVerifier_verify self (verifier_of self request s) = CbRaise e →
  authenticate self request h
  = MkOut (Raise (length h)) (h ++ [e]) (trace_verify self request s).
Proof.
  intros (Hlook & Hu & Hs & Hi) Hv. to_verifier s Hlook Hu Hs.
  rewrite Hi, bind_eq. unfold call at 1. by rewrite Hv.
Qed.

Lemma authenticate_verify_false (s : Stage) :
  verifier_built self request s →
  HeaderVerifier_verify self (verifier_of self request s) = CbRet false →
  authenticate self request h
  = MkOut (Raise FAILED) h (trace_verify self request s).
Proof.
  intros (Hlook & Hu & Hs & Hi) Hv. to_verifier s Hlook Hu Hs.
  rewrite Hi, bind_eq. unfold call at 1. by rewrite Hv.
Qed.

Lemma authenticate_verified (s : Stage) :
  verified self request s →
  authenticate self request h
  = prepend (trace_verify self request s)
      ((check_expires self request
        ≫= λ _, on_behalf_of self request (st_user s) (st_fields s)) h).
Proof.
  intros ((Hlook & Hu & Hs & Hi) & Hv). to_verifier s Hlook Hu Hs.
  rewrite Hi, bind_eq. unfold call at 1. rewrite Hv. cbn [negb].
  rewrite !prepend_prepend. reflexivity.
Qed.

End Run.

(** ** The expiry check and the impersonation *)

Section Tail.

Variable self : Env.
Variable request : HttpRequest.
Variable h : heap.

Lemma lookup_fresh (o : exc_obj) : (h ++ [o])%list !! length h = Some o.
Proof. by apply list_lookup_middle. Qed.

Lemma check_expires_absent :
  headers_get "(expires)" request = None →
  check_expires self request h
  = MkOut (Ret tt) (h ++ [type_error_obj]) [EvExpires None].
Proof.
  intros He. unfold check_expires. rewrite He, bind_eq. unfold emit at 1.
  rewrite bind_eq. unfold try_except. rewrite bind_eq.
  unfold py_int, raise_new.
  rewrite lookup_fresh. reflexivity.
Qed.

Lemma check_expires_not_a_number (v : string) :
  headers_get "(expires)" request = Some v →
  int_of_str v = None →
  check_expires self request h
  = MkOut (Raise (length h)) (h ++ [value_error_obj]) [EvExpires (Some v)].
Proof.
  intros He Hn. unfold check_expires. rewrite He, bind_eq. unfold emit at 1.
  rewrite bind_eq. unfold try_except. rewrite bind_eq.
  unfold py_int, raise_new. rewrite Hn.
  rewrite lookup_fresh. reflexivity.
Qed.

Lemma check_expires_number (v : string) (n : Z) :
  headers_get "(expires)" request = Some v →
  int_of_str v = Some n →
  check_expires self request h
  = if (n =? 0)%Z then MkOut (Ret tt) h [EvExpires (Some v)]
    else if float_gt_int (time_time self) n
         then MkOut (Raise FAILED) h [EvExpires (Some v); EvClock]
         else MkOut (Ret tt) h [EvExpires (Some v); EvClock].
Proof.
  intros He Hn. unfold check_expires. rewrite He, bind_eq. unfold emit at 1.
  rewrite bind_eq. unfold try_except. rewrite bind_eq.
  unfold py_int. rewrite Hn. cbn [truthy].
  unfold mret, M_ret, ret, prepend. cbn [out_res out_heap out_trace app].
  destruct (n =? 0)%Z; cbn [negb].
  - reflexivity.
  - rewrite !bind_eq. unfold emit, prepend.
    cbn [out_res out_heap out_trace app].
    by destruct (float_gt_int (time_time self) n).
Qed.

Lemma on_behalf_of_absent (user : pyval) (fields : gmap string string)
    (keyid : string) :
  headers_get "On-Behalf-Of" request = None →
  fields !! "keyid" = Some keyid →
  on_behalf_of self request user fields h
  = MkOut (Ret (Some (user, Some keyid))) h [].
Proof.
  intros Ho Hk. unfold on_behalf_of, headers_contains.
  unfold headers_get in Ho. rewrite Ho.
  rewrite bool_decide_eq_false_2 by (by intros [? ?]).
  rewrite bind_eq. unfold getitem. change (lower "keyid") with "keyid".
  by rewrite Hk.
Qed.

Lemma on_behalf_of_present (user : pyval) (fields : gmap string string)
    (user_id : string) :
  headers_get "On-Behalf-Of" request = Some user_id →
  on_behalf_of self request user fields h
  = match fetch_on_behalf_of_user self user_id with
    | CbRet u =>
        if truthy u
        then MkOut (Ret (Some (u, None))) h [EvFetchOnBehalfOf user_id]
        else MkOut (Raise (length h)) (h ++ [not_found_obj])
               [EvFetchOnBehalfOf user_id]
    | CbRaise e =>
        MkOut (Raise (length h)) (h ++ [e]) [EvFetchOnBehalfOf user_id]
    end.
Proof.
  intros Ho. unfold on_behalf_of, headers_contains. rewrite Ho.
  unfold headers_get in Ho. rewrite Ho.
  rewrite bool_decide_eq_true_2 by eauto.
  rewrite bind_eq. unfold mret, M_ret, ret. rewrite prepend_nil, bind_eq.
  unfold call.
  destruct (fetch_on_behalf_of_user self user_id) as [u|e]; [|reflexivity].
  by destruct (truthy u).
Qed.

End Tail.

(** ** The cases of [tests.py] *)

Example test_missing_authorization :
  out_res (authenticate Runs.env (Tests.get_measures EmptyString []) module_heap)
  = Ret None.
Proof. vm_compute. reflexivity. Qed.

Example test_bad_signature_1 :
  out_res (authenticate Runs.env
             (Tests.get_measures "Signature some-wrong-value" []) module_heap)
  = Raise FAILED.
Proof. vm_compute. reflexivity. Qed.

Example test_invalid_signature :
  out_res (authenticate (Tests.api Runs.refuse Runs.find_user (inject_Z Runs.frozen))
             Runs.valid_request module_heap)
  = Raise FAILED.
Proof. vm_compute. reflexivity. Qed.

Example test_valid_signature :
  out_res (authenticate Runs.env Runs.valid_request module_heap)
  = Ret (Some (Tests.test_user, Some Tests.KEYID)).
Proof. vm_compute. reflexivity. Qed.

Example test_expired_signature :
  out_res (authenticate Runs.env Runs.expired_request module_heap)
  = Raise FAILED.
Proof. vm_compute. reflexivity. Qed.

Example test_valid_signature_on_behalf_of_other_user :
  out_res (authenticate Runs.env Runs.on_behalf_request module_heap)
  = Ret (Some (Tests.test_user, None)).
Proof. vm_compute. reflexivity. Qed.

Example authenticate_header_default :
  authenticate_header Runs.env Runs.valid_request
  = "Signature realm=" ++ Tests.quoted "api" ++ ",headers="
    ++ Tests.quoted "(request-target) date".
Proof. reflexivity. Qed.

(** ** No credential presented *)

Ltac compute_stage := repeat split; vm_compute; congruence.

Lemma get_authorization_header_empty (request : HttpRequest) :
  headers_get "Authorization" request = None
  ∨ headers_get "Authorization" request = Some EmptyString →
  get_authorization_header request = EmptyString.
Proof. unfold get_authorization_header. by intros [-> | ->]. Qed.

(** C3: without an [Authorization] header (absent or empty), or with one
    whose scheme is not [Signature] up to case, [authenticate] returns
    [None]; it raises nothing and builds no exception, whatever the rest
    of the header is. *)
Theorem C3_no_credential_returns_None (self : Env) (request : HttpRequest)
    (h : heap) :
  no_credential self request →
  out_res (authenticate self request h) = Ret None
  ∧ out_heap (authenticate self request h) = h.
Proof.
  intros [Habs | Hemp | scheme fields Hne Hp Hs].
  - rewrite authenticate_no_header; [done|].
    apply get_authorization_header_empty; by left.
  - rewrite authenticate_no_header; [done|].
    apply get_authorization_header_empty; by right.
  - by rewrite (authenticate_foreign _ _ _ scheme fields).
Qed.

Lemma C3_witness :
  out_res (authenticate Runs.env Runs.foreign_request module_heap) = Ret None
  ∧ out_heap (authenticate Runs.env Runs.foreign_request module_heap)
    = module_heap.
Proof.
  apply C3_no_credential_returns_None.
  apply (header_foreign _ _ "NotSignature" ∅); vm_compute; congruence.
Defined.

(** ** The generic rejection *)

Lemma malformed_not_subseteq (fields : gmap string string) :
  malformed fields → ¬ required_fields ⊆ dom fields.
Proof.
  intros [-> | key Hk Hnone] Hsub.
  - rewrite dom_empty_L in Hsub.
    apply (not_elem_of_empty (C := gset string) "keyid"), Hsub.
    apply elem_of_required_fields. by left.
  - apply Hsub, elem_of_dom in Hk. rewrite Hnone in Hk. by destruct Hk.
Qed.

(** C4: a [Signature] header whose parameters are empty, or lack one of
    [keyid], [algorithm] and [signature], is rejected with [FAILED], whose
    message is "Invalid signature.", whichever parameter is missing. *)
Theorem C4_missing_field_rejected (self : Env) (request : HttpRequest)
    (h : heap) (s : Stage) :
  loaded h →
  signature_scheme self request s →
  malformed (st_fields s) →
  out_res (authenticate self request h) = Raise FAILED
  ∧ exc_detail <$> out_heap (authenticate self request h) !! FAILED
    = Some "Invalid signature.".
Proof.
  intros Hl Hsch Hm.
  rewrite (authenticate_malformed _ _ _ s Hsch (malformed_not_subseteq _ Hm)).
  cbn [out_res out_heap]. split; [done|]. unfold loaded in Hl. by rewrite Hl.
Qed.

Lemma C4_witness :
  out_res (authenticate Runs.env Runs.no_algorithm_request module_heap)
  = Raise FAILED
  ∧ exc_detail <$>
      out_heap (authenticate Runs.env Runs.no_algorithm_request module_heap)
      !! FAILED
    = Some "Invalid signature.".
Proof.
  apply (C4_missing_field_rejected _ _ _ Runs.no_algorithm_stage).
  - reflexivity.
  - compute_stage.
  - apply (field_missing _ "algorithm"); [|reflexivity].
    apply elem_of_required_fields. right; by left.
Defined.

Lemma float_gt_int_spec (x : Q) (n : Z) :
  float_gt_int x n = true ↔ (inject_Z n < x)%Q.
Proof.
  unfold float_gt_int. rewrite negb_true_iff.
  split.
  - intros Hb. apply Qnot_le_lt. intros Hle.
    apply Qle_bool_iff in Hle. congruence.
  - intros Hlt. destruct (Qle_bool x (inject_Z n)) eqn:E; [|done].
    apply Qle_bool_iff in E. by apply Qlt_not_le in Hlt.
Qed.

Lemma float_gt_int_false (x : Q) (n : Z) :
  float_gt_int x n = false ↔ (x <= inject_Z n)%Q.
Proof.
  unfold float_gt_int. rewrite negb_false_iff. apply Qle_bool_iff.
Qed.

Lemma authenticate_expired (self : Env) (request : HttpRequest) (h : heap)
    (s : Stage) (v : string) (n : Z) :
  verified self request s →
  expired self request v n →
  authenticate self request h
  = MkOut (Raise FAILED) h
      (trace_verify self request s ++ [EvExpires (Some v); EvClock]).
Proof.
  intros Hv (He & Hn & Hnz & Hlt).
  rewrite (authenticate_verified _ _ _ s Hv), bind_eq.
  rewrite (check_expires_number _ _ _ v n He Hn).
  apply Z.eqb_neq in Hnz. rewrite Hnz.
  apply float_gt_int_spec in Hlt. by rewrite Hlt.
Qed.

Lemma generic_cause_outcome (self : Env) (request : HttpRequest) (h : heap)
    (s : Stage) :
  generic_cause self request s →
  ∃ t, authenticate self request h = MkOut (Raise FAILED) h t.
Proof.
  intros [Hsch Hm | Hlook Hf | Hb Hv | v n Hv He].
  - eexists. apply (authenticate_malformed _ _ _ s Hsch).
    by apply malformed_not_subseteq.
  - eexists. apply (authenticate_falsy _ _ _ s Hlook).
    destruct Hf as [-> | ->]; [done | by rewrite andb_false_r].
  - eexists. by apply authenticate_verify_false.
  - eexists. by apply (authenticate_expired _ _ _ s v n).
Qed.

(** C1: whatever the cause of a generic rejection (parameters empty or
    missing, a falsy half in the credential lookup, a signature that does
    not verify, an expired signature), the object raised is [FAILED], the
    one object the module built when it was loaded; it is still what it was
    then, an [AuthenticationFailed] with the message "Invalid signature.",
    and the run has built no other object. *)
Theorem C1_generic_rejection_raises_FAILED (self : Env) (request : HttpRequest)
    (h : heap) (s : Stage) :
  loaded h →
  generic_cause self request s →
  out_res (authenticate self request h) = Raise FAILED
  ∧ out_heap (authenticate self request h) = h
  ∧ out_heap (authenticate self request h) !! FAILED = module_heap !! FAILED
  ∧ module_heap !! FAILED
    = Some {| exc_cls := AuthenticationFailed;
              exc_detail := "Invalid signature." |}.
Proof.
  intros Hl Hc. destruct (generic_cause_outcome _ _ h _ Hc) as [t ->].
  cbn [out_res out_heap]. by rewrite Hl.
Qed.

Lemma C1_witness :
  out_res (authenticate Runs.env Runs.expired_request module_heap) = Raise FAILED
  ∧ out_heap (authenticate Runs.env Runs.expired_request module_heap)
    = module_heap
  ∧ out_heap (authenticate Runs.env Runs.expired_request module_heap) !! FAILED
    = module_heap !! FAILED
  ∧ module_heap !! FAILED
    = Some {| exc_cls := AuthenticationFailed;
              exc_detail := "Invalid signature." |}.
Proof.
  apply (C1_generic_rejection_raises_FAILED _ _ _ Runs.valid_stage).
  - reflexivity.
  - apply (cause_expired _ _ _ "1577847600" 1577847600); compute_stage.
Defined.

(** C5: when the credential lookup returns a pair of which one half is
    falsy, the request is rejected with [FAILED] and no verifier is built;
    when both halves are truthy the verifier is built, so the run goes on
    to the verification exactly when both halves are truthy. *)
Theorem C5_falsy_credential_rejected (self : Env) (request : HttpRequest)
    (h : heap) (s : Stage) :
  loaded h →
  looked_up self request s →
  (truthy (st_user s) = false ∨ truthy (st_secret s) = false →
   out_res (authenticate self request h) = Raise FAILED
   ∧ out_heap (authenticate self request h) !! FAILED = Some failed_obj)
  ∧ (EvNewVerifier (verifier_of self request s)
       ∈ out_trace (authenticate self request h)
     ↔ truthy (st_user s) = true ∧ truthy (st_secret s) = true).
Proof.
  intros Hl Hlook. split.
  - intros Hf.
    destruct (generic_cause_outcome self request h s) as [t ->]; [|done].
    by apply cause_lookup.
  - destruct (truthy (st_user s)) eqn:Hu, (truthy (st_secret s)) eqn:Hs.
    2-4: rewrite (authenticate_falsy _ _ _ s Hlook)
           by (by rewrite Hu, Hs);
         cbn [out_trace]; unfold trace_lookup;
         split; [|by intros [? ?]];
         intros Hin; apply elem_of_cons in Hin as [Hin | Hin]; [done|];
         apply elem_of_cons in Hin as [Hin | Hin]; [done|];
         by apply elem_of_nil in Hin.
    split; [done | intros _].
    destruct (HeaderVerifier_init self (verifier_of self request s))
      as [[] | e] eqn:Hi.
    + assert (verifier_built self request s) as Hb by done.
      destruct (HeaderVerifier_verify self (verifier_of self request s))
        as [[|] | e] eqn:Hv.
      * rewrite (authenticate_verified _ _ _ s) by done.
        unfold prepend, trace_verify, trace_lookup. cbn [out_trace app].
        do 2 apply list_elem_of_further. apply list_elem_of_here.
      * rewrite (authenticate_verify_false _ _ _ s) by done.
        unfold trace_verify, trace_lookup. cbn [out_trace app].
        do 2 apply list_elem_of_further. apply list_elem_of_here.
      * rewrite (authenticate_verify_raises _ _ _ s e) by done.
        unfold trace_verify, trace_lookup. cbn [out_trace app].
        do 2 apply list_elem_of_further. apply list_elem_of_here.
    + rewrite (authenticate_init_raises _ _ _ s e) by done.
      unfold trace_lookup. cbn [out_trace app].
      do 2 apply list_elem_of_further. apply list_elem_of_here.
Qed.

Lemma C5_witness :
  out_res (authenticate Runs.nobody_env Runs.valid_request module_heap)
  = Raise FAILED
  ∧ out_heap (authenticate Runs.nobody_env Runs.valid_request module_heap)
    !! FAILED = Some failed_obj.
Proof.
  apply (C5_falsy_credential_rejected Runs.nobody_env Runs.valid_request
           module_heap Runs.nobody_stage).
  - reflexivity.
  - compute_stage.
  - left. reflexivity.
Defined.

(** ** Errors of the collaborators *)

Section Expiry.

Variable self : Env.
Variable request : HttpRequest.
Variable h : heap.

(** The expiry check leaves the heap as it is, up to one object: the
    exception that [int] raised. *)
Lemma check_expires_heap :
  out_heap (check_expires self request h) = h
  ∨ ∃ o, out_heap (check_expires self request h) = (h ++ [o])%list.
Proof.
  destruct (headers_get "(expires)" request) as [v|] eqn:He.
  - destruct (int_of_str v) as [n|] eqn:Hn.
    + rewrite (check_expires_number _ _ _ v n He Hn). left.
      destruct (n =? 0)%Z; [done|].
      by destruct (float_gt_int (time_time self) n).
    + rewrite (check_expires_not_a_number _ _ _ v He Hn). right. by eexists.
  - rewrite (check_expires_absent _ _ _ He). right. by eexists.
Qed.

Lemma check_expires_loaded :
  loaded h → loaded (out_heap (check_expires self request h)).
Proof.
  intros Hl. destruct check_expires_heap as [-> | [o ->]]; [done|].
  by apply loaded_app.
Qed.

(** A run that passes the expiry check ends with the impersonation stage. *)
Lemma authenticate_not_expired (s : Stage) :
  verified self request s →
  out_res (check_expires self request h) = Ret tt →
  authenticate self request h
  = prepend (trace_verify self request s
             ++ out_trace (check_expires self request h))
      (on_behalf_of self request (st_user s) (st_fields s)
         (out_heap (check_expires self request h))).
Proof.
  intros Hv Hc. rewrite (authenticate_verified _ _ _ s Hv), bind_eq.
  destruct (check_expires self request h) as [r h1 t1].
  cbn [out_res out_heap out_trace] in *. subst r.
  by rewrite prepend_prepend.
Qed.

End Expiry.

Lemma collaborator_raises_outcome (self : Env) (request : HttpRequest)
    (h : heap) (s : Stage) (e : exc_obj) :
  loaded h →
  collaborator_raises self request h s e →
  ∃ h1 t, loaded h1
    ∧ authenticate self request h = MkOut (Raise (length h1)) (h1 ++ [e]) t.
Proof.
  intros Hl [Hsch Hreq Hf | Hlook Hu Hs Hi | Hb Hv | user_id Hv Hc Ho Hf].
  - exists h. eexists. split; [done|]. by apply authenticate_fetch_raises.
  - exists h. eexists. split; [done|]. by apply authenticate_init_raises.
  - exists h. eexists. split; [done|]. by apply authenticate_verify_raises.
  - exists (out_heap (check_expires self request h)). eexists.
    split; [by apply check_expires_loaded|].
    rewrite (authenticate_not_expired _ _ _ s Hv Hc).
    rewrite (on_behalf_of_present _ _ _ _ _ user_id Ho), Hf. reflexivity.
Qed.

(** C2, as the code has it: an exception that the credential lookup, the
    verifier or the impersonation lookup raises reaches the caller of
    [authenticate] as it is.  The object raised is the collaborator's, not
    [FAILED], and [FAILED] is left as it was. *)
Theorem C2_collaborator_error_propagates (self : Env) (request : HttpRequest)
    (h : heap) (s : Stage) (e : exc_obj) :
  loaded h →
  collaborator_raises self request h s e →
  ∃ a, out_res (authenticate self request h) = Raise a
    ∧ a ≠ FAILED
    ∧ out_heap (authenticate self request h) !! a = Some e
    ∧ out_heap (authenticate self request h) !! FAILED = Some failed_obj.
Proof.
  intros Hl Hc.
  destruct (collaborator_raises_outcome _ _ _ _ _ Hl Hc) as (h1 & t & Hl1 & ->).
  exists (length h1). cbn [out_res out_heap]. repeat split.
  - by apply loaded_fresh.
  - apply lookup_fresh.
  - by apply loaded_app.
Qed.

Lemma C2_witness :
  ∃ a, out_res (authenticate Runs.env Runs.other_key_request module_heap)
       = Raise a
    ∧ a ≠ FAILED
    ∧ out_heap (authenticate Runs.env Runs.other_key_request module_heap) !! a
      = Some Runs.bad_key_obj
    ∧ out_heap (authenticate Runs.env Runs.other_key_request module_heap)
      !! FAILED = Some failed_obj.
Proof.
  apply (C2_collaborator_error_propagates _ _ _ Runs.other_key_stage).
  - reflexivity.
  - apply lookup_raises; compute_stage.
Defined.

(** C2, as the specification has it, fails: the lookup of [tests.py] raises
    "Bad key ID" for a key it does not know, and [authenticate] raises that
    object, not [FAILED]. *)
Lemma C2_counterexample :
  ¬ (∀ (self : Env) (request : HttpRequest) (h : heap) (s : Stage)
       (e : exc_obj),
       loaded h →
       collaborator_raises self request h s e →
       out_res (authenticate self request h) = Raise FAILED).
Proof.
  intros H.
  specialize (H Runs.env Runs.other_key_request module_heap
                Runs.other_key_stage Runs.bad_key_obj).
  assert (out_res (authenticate Runs.env Runs.other_key_request module_heap)
          = Raise 1%nat) as Hrun by (vm_compute; reflexivity).
  rewrite Hrun in H. unfold FAILED in H.
  assert (Raise (A := verdict) 1%nat = Raise 0%nat) as Habs.
  { apply H; [reflexivity|]. apply lookup_raises; compute_stage. }
  discriminate Habs.
Qed.

(** ** The order of the steps *)

Lemma no_expiry_event_lookup (request : HttpRequest) (s : Stage) :
  no_expiry_event (trace_lookup request s).
Proof. by repeat constructor. Qed.

Lemma no_expiry_event_verify (self : Env) (request : HttpRequest) (s : Stage) :
  no_expiry_event (trace_verify self request s).
Proof. by repeat constructor. Qed.

(** Every run either gets past the verification of the signature, or ends
    before the expiry check has done anything. *)
Lemma authenticate_cases (self : Env) (request : HttpRequest) (h : heap) :
  (∃ s, verified self request s)
  ∨ no_expiry_event (out_trace (authenticate self request h)).
Proof.
  destruct (decide (get_authorization_header request = EmptyString)) as [H0 | Hne].
  { right. rewrite authenticate_no_header by done. constructor. }
  destruct (parse_authorization_header self (get_authorization_header request))
    as [[scheme fields] | e] eqn:Hp.
  2: { right. by rewrite (authenticate_parse_raises _ _ _ e);
         [repeat constructor | |]. }
  destruct (decide (lower scheme = "signature")) as [Hs | Hs].
  2: { right. by rewrite (authenticate_foreign _ _ _ scheme fields);
         [repeat constructor | | |]. }
  pose (s0 := {| st_scheme := scheme; st_fields := fields;
                 st_keyid := EmptyString; st_algorithm := EmptyString;
                 st_signature := EmptyString;
                 st_user := PyNone; st_secret := PyNone |}).
  destruct (decide (required_fields ⊆ dom fields)) as [Hsub | Hsub].
  2: { right. by rewrite (authenticate_malformed _ _ _ s0);
         [repeat constructor | |]. }
  assert (∃ k, fields !! "keyid" = Some k) as [k Hk].
  { apply elem_of_dom, Hsub, elem_of_required_fields. by left. }
  assert (∃ a, fields !! "algorithm" = Some a) as [a Ha].
  { apply elem_of_dom, Hsub, elem_of_required_fields. right; by left. }
  assert (∃ g, fields !! "signature" = Some g) as [g Hg].
  { apply elem_of_dom, Hsub, elem_of_required_fields. right; by right. }
  destruct (fetch_user_data self k a) as [[u sec] | e] eqn:Hf.
  2: { right.
       rewrite (authenticate_fetch_raises _ _ _
                  {| st_scheme := scheme; st_fields := fields; st_keyid := k;
                     st_algorithm := a; st_signature := g;
                     st_user := PyNone; st_secret := PyNone |} e);
         [apply no_expiry_event_lookup | done..]. }
  pose (s := {| st_scheme := scheme; st_fields := fields; st_keyid := k;
                st_algorithm := a; st_signature := g;
                st_user := u; st_secret := sec |}).
  assert (looked_up self request s) as Hlook by done.
  destruct (truthy u && truthy sec) eqn:Ht.
  2: { right. rewrite (authenticate_falsy _ _ _ s Hlook Ht).
       apply no_expiry_event_lookup. }
  apply andb_true_iff in Ht as [Hu Hsec].
  destruct (HeaderVerifier_init self (verifier_of self request s))
    as [[] | e] eqn:Hi.
  2: { right. rewrite (authenticate_init_raises _ _ _ s e) by done.
       by repeat constructor. }
  assert (verifier_built self request s) as Hb by done.
  destruct (HeaderVerifier_verify self (verifier_of self request s))
    as [[|] | e] eqn:Hv.
  - left. by exists s.
  - right. rewrite (authenticate_verify_false _ _ _ s) by done.
    apply no_expiry_event_verify.
  - right. rewrite (authenticate_verify_raises _ _ _ s e) by done.
    apply no_expiry_event_verify.
Qed.

(** C6: the expiry check comes after a successful verification.  In every
    run, an event of the expiry check (the read of [(expires)], the read of
    the clock that the comparison needs) comes after the call of [verify],
    which returned [True], and none comes before it; and when the verifier
    is built but [verify] does not return [True], the run has no event of
    the expiry check at all. *)
Theorem C6_expiry_only_after_verification (self : Env) (request : HttpRequest)
    (h : heap) :
  (∀ e, e ∈ out_trace (authenticate self request h) →
        is_expiry_event e = true →
        ∃ (s : Stage) (pre post : list event),
          out_trace (authenticate self request h)
          = (pre ++ EvVerify (verifier_of self request s) :: post)%list
          ∧ HeaderVerifier_verify self (verifier_of self request s) = CbRet true
          ∧ no_expiry_event pre
          ∧ e ∈ post)
  ∧ (∀ s, verifier_built self request s →
          HeaderVerifier_verify self (verifier_of self request s) ≠ CbRet true →
          no_expiry_event (out_trace (authenticate self request h))).
Proof.
  split.
  - intros e Hin He.
    destruct (authenticate_cases self request h) as [[s Hv] | Hno].
    2: { unfold no_expiry_event in Hno. rewrite Forall_forall in Hno. apply Hno in Hin. congruence. }
    exists s, (trace_lookup request s ++ [EvNewVerifier (verifier_of self request s)])%list.
    rewrite (authenticate_verified _ _ _ s Hv) in Hin |- *.
    eexists. split; [|split; [apply Hv | split]].
    + unfold prepend, trace_verify. cbn [out_trace].
      rewrite <- !app_assoc. reflexivity.
    + by repeat constructor.
    + unfold prepend in Hin. cbn [out_trace] in Hin.
      apply elem_of_app in Hin as [Hin | Hin]; [|done].
      pose proof (no_expiry_event_verify self request s) as Hno.
      unfold no_expiry_event in Hno. rewrite Forall_forall in Hno. apply Hno in Hin. congruence.
  - intros s Hb Hnv.
    destruct (HeaderVerifier_verify self (verifier_of self request s))
      as [[|] | e] eqn:Hv; [done | |].
    + rewrite (authenticate_verify_false _ _ _ s) by done.
      apply no_expiry_event_verify.
    + rewrite (authenticate_verify_raises _ _ _ s e) by done.
      apply no_expiry_event_verify.
Qed.

Lemma C6_witness :
  ∃ (s : Stage) (pre post : list event),
    out_trace (authenticate Runs.env Runs.expired_request module_heap)
    = (pre ++ EvVerify (verifier_of Runs.env Runs.expired_request s) :: post)%list
    ∧ HeaderVerifier_verify Runs.env (verifier_of Runs.env Runs.expired_request s)
      = CbRet true
    ∧ no_expiry_event pre
    ∧ EvClock ∈ post.
Proof.
  apply (proj1 (C6_expiry_only_after_verification
                  Runs.env Runs.expired_request module_heap) EvClock).
  - apply list_elem_of_In. vm_compute. do 5 right. left. reflexivity.
  - reflexivity.
Defined.

(** ** The expiry boundary *)

(** C7, as the code has it: for a verified request whose [(expires)] is a
    number, a value equal to the current time is not expired, and the run
    goes on to lines 116-122 in the same heap; a value other than zero that
    is less than the current time is rejected with [FAILED]. *)
Theorem C7_expiry_boundary (self : Env) (request : HttpRequest) (h : heap)
    (s : Stage) (v : string) (n : Z) :
  loaded h →
  verified self request s →
  headers_get "(expires)" request = Some v →
  int_of_str v = Some n →
  ((time_time self == inject_Z n)%Q →
   ∃ t, authenticate self request h
        = prepend t (on_behalf_of self request (st_user s) (st_fields s) h))
  ∧ (n ≠ 0 → (inject_Z n < time_time self)%Q →
     out_res (authenticate self request h) = Raise FAILED
     ∧ out_heap (authenticate self request h) !! FAILED = Some failed_obj).
Proof.
  intros Hl Hv He Hn. split.
  - intros Heq.
    assert (out_res (check_expires self request h) = Ret tt
            ∧ out_heap (check_expires self request h) = h) as [Hr Hh].
    { rewrite (check_expires_number _ _ _ v n He Hn).
      destruct (n =? 0)%Z; [done|].
      assert (float_gt_int (time_time self) n = false) as ->; [|done].
      apply float_gt_int_false. rewrite Heq. apply Qle_refl. }
    eexists. rewrite (authenticate_not_expired _ _ _ s Hv Hr), Hh.
    reflexivity.
  - intros Hnz Hlt. by rewrite (authenticate_expired _ _ _ s v n).
Qed.

Lemma C7_witness :
  (∃ t, authenticate Runs.env Runs.expires_now_request module_heap
        = prepend t (on_behalf_of Runs.env Runs.expires_now_request
                       (st_user Runs.valid_stage) (st_fields Runs.valid_stage)
                       module_heap))
  ∧ (out_res (authenticate Runs.env Runs.expired_request module_heap)
     = Raise FAILED
     ∧ out_heap (authenticate Runs.env Runs.expired_request module_heap)
       !! FAILED = Some failed_obj).
Proof.
  split.
  - apply (C7_expiry_boundary Runs.env Runs.expires_now_request module_heap
             Runs.valid_stage "1581724800" 1581724800);
      [reflexivity | compute_stage | reflexivity | reflexivity | reflexivity].
  - apply (C7_expiry_boundary Runs.env Runs.expired_request module_heap
             Runs.valid_stage "1577847600" 1577847600);
      [reflexivity | compute_stage | reflexivity | reflexivity | lia
      | reflexivity].
Defined.

(** C7, as the specification has it, fails at zero: a verified request
    with [(expires): 0] is authenticated although zero is less than the
    current time. *)
Lemma C7_counterexample :
  ¬ (∀ (self : Env) (request : HttpRequest) (h : heap) (s : Stage)
       (v : string) (n : Z),
       loaded h →
       verified self request s →
       headers_get "(expires)" request = Some v →
       int_of_str v = Some n →
       (inject_Z n < time_time self)%Q →
       out_res (authenticate self request h) = Raise FAILED).
Proof.
  intros H.
  specialize (H Runs.env Runs.expires_zero_request module_heap
                Runs.valid_stage "0" 0).
  assert (out_res (authenticate Runs.env Runs.expires_zero_request module_heap)
          = Ret (Some (Tests.test_user, Some Tests.KEYID))) as Hrun
    by (vm_compute; reflexivity).
  rewrite Hrun in H.
  assert (Ret (Some (Tests.test_user, Some Tests.KEYID)) = Raise FAILED) as Habs.
  { apply H; [reflexivity | compute_stage | reflexivity | reflexivity
             | reflexivity]. }
  discriminate Habs.
Qed.

(** C10: for a verified request, an [(expires)] that reads as the number
    zero is falsy: the clock is not read, nothing is compared, and the run
    goes on to lines 116-122; without an [On-Behalf-Of] header the request is
    authenticated as the user of the credential, whatever the time is. *)
Theorem C10_expires_zero_is_no_expiry (self : Env) (request : HttpRequest)
    (h : heap) (s : Stage) (v : string) :
  verified self request s →
  headers_get "(expires)" request = Some v →
  int_of_str v = Some 0 →
  check_expires self request h = MkOut (Ret tt) h [EvExpires (Some v)]
  ∧ authenticate self request h
    = prepend (trace_verify self request s ++ [EvExpires (Some v)])
        (on_behalf_of self request (st_user s) (st_fields s) h)
  ∧ (headers_get "On-Behalf-Of" request = None →
     out_res (authenticate self request h)
     = Ret (Some (st_user s, Some (st_keyid s)))
     ∧ EvClock ∉ out_trace (authenticate self request h)).
Proof.
  intros Hv He Hn.
  assert (check_expires self request h = MkOut (Ret tt) h [EvExpires (Some v)])
    as Hc by (by rewrite (check_expires_number _ _ _ v 0 He Hn)).
  assert (authenticate self request h
          = prepend (trace_verify self request s ++ [EvExpires (Some v)])
              (on_behalf_of self request (st_user s) (st_fields s) h)) as Ha.
  { rewrite (authenticate_not_expired _ _ _ s Hv) by (by rewrite Hc).
    by rewrite Hc. }
  split; [done|]. split; [done|]. intros Ho. rewrite Ha.
  rewrite (on_behalf_of_absent _ _ _ _ _ (st_keyid s) Ho) by apply Hv.
  split; [done|].
  - unfold prepend, trace_verify, trace_lookup. cbn [out_trace app].
    intros Hin. apply list_elem_of_In in Hin. cbn [In] in Hin.
    intuition discriminate.
Qed.

Lemma C10_witness :
  out_res (authenticate Runs.env Runs.expires_zero_request module_heap)
  = Ret (Some (Tests.test_user, Some Tests.KEYID))
  ∧ EvClock ∉ out_trace (authenticate Runs.env Runs.expires_zero_request module_heap).
Proof.
  apply (C10_expires_zero_is_no_expiry Runs.env Runs.expires_zero_request
           module_heap Runs.valid_stage "0");
    [compute_stage | reflexivity | reflexivity | reflexivity].
Defined.

(** ** An [(expires)] that is absent or not a number *)

(** Without [(expires)], [int(None)] raises a [TypeError], which is caught:
    the run goes on to lines 116-122. *)
Lemma authenticate_expires_absent (self : Env) (request : HttpRequest)
    (h : heap) (s : Stage) :
  verified self request s →
  headers_get "(expires)" request = None →
  authenticate self request h
  = prepend (trace_verify self request s ++ [EvExpires None])
      (on_behalf_of self request (st_user s) (st_fields s)
         (h ++ [type_error_obj])%list).
Proof.
  intros Hv He.
  pose proof (check_expires_absent self request h He) as Hc.
  rewrite (authenticate_not_expired _ _ _ s Hv) by (by rewrite Hc).
  by rewrite Hc.
Qed.

(** With an [(expires)] that is not a number, [int] raises a [ValueError],
    which the handler for [TypeError] lets through. *)
Lemma authenticate_expires_not_a_number (self : Env) (request : HttpRequest)
    (h : heap) (s : Stage) (v : string) :
  verified self request s →
  headers_get "(expires)" request = Some v →
  int_of_str v = None →
  authenticate self request h
  = MkOut (Raise (length h)) (h ++ [value_error_obj])
      (trace_verify self request s ++ [EvExpires (Some v)]).
Proof.
  intros Hv He Hn.
  rewrite (authenticate_verified _ _ _ s Hv), bind_eq.
  by rewrite (check_expires_not_a_number _ _ _ v He Hn).
Qed.

(** C8, at the request of [test_valid_signature] with the header
    [(expires): tomorrow]: the signature is verified, the value is not a
    number, and [authenticate] raises the [ValueError] of [int] instead of
    going on as if there were no expiry. *)
Theorem C8_expires_not_a_number_raises_ValueError :
  verified Runs.env Runs.expires_text_request Runs.valid_stage
  ∧ headers_get "(expires)" Runs.expires_text_request = Some "tomorrow"
  ∧ int_of_str "tomorrow" = None
  ∧ out_res (authenticate Runs.env Runs.expires_text_request module_heap)
    = Raise 1%nat
  ∧ out_heap (authenticate Runs.env Runs.expires_text_request module_heap)
    !! 1%nat
    = Some {| exc_cls := ValueError;
              exc_detail := "invalid literal for int() with base 10" |}.
Proof.
  assert (verified Runs.env Runs.expires_text_request Runs.valid_stage) as Hv
    by compute_stage.
  split; [done|]. split; [reflexivity|]. split; [reflexivity|].
  by rewrite (authenticate_expires_not_a_number _ _ _ Runs.valid_stage "tomorrow").
Qed.

(** ** Impersonation *)

(** C9: for a verified request that passes the expiry check and has an
    [On-Behalf-Of] header: when the impersonation lookup returns a falsy
    value, [authenticate] raises a new [AuthenticationFailed] with the
    message "On behalf of user was not found.", which is not [FAILED]; when
    it returns a truthy value, [authenticate] returns that user with [None]
    for the key identifier, and neither the user of the credential nor the
    [keyId] of the client appears. *)
Theorem C9_on_behalf_of (self : Env) (request : HttpRequest) (h : heap)
    (s : Stage) (user_id : string) (u : pyval) :
  loaded h →
  verified self request s →
  out_res (check_expires self request h) = Ret tt →
  headers_get "On-Behalf-Of" request = Some user_id →
  fetch_on_behalf_of_user self user_id = CbRet u →
  (truthy u = false →
   ∃ a, out_res (authenticate self request h) = Raise a
     ∧ a ≠ FAILED
     ∧ out_heap (authenticate self request h) !! a
       = Some {| exc_cls := AuthenticationFailed;
                 exc_detail := "On behalf of user was not found." |}
     ∧ out_heap (authenticate self request h) !! FAILED = Some failed_obj)
  ∧ (truthy u = true →
     out_res (authenticate self request h) = Ret (Some (u, None))).
Proof.
  intros Hl Hv Hc Ho Hf.
  rewrite (authenticate_not_expired _ _ _ s Hv Hc).
  rewrite (on_behalf_of_present _ _ _ _ _ user_id Ho), Hf.
  pose proof (check_expires_loaded self request h Hl) as Hl1.
  split; intros ->; cbn [prepend out_res out_heap]; [|done].
  exists (length (out_heap (check_expires self request h))).
  repeat split.
  - by apply loaded_fresh.
  - apply lookup_fresh.
  - by apply loaded_app.
Qed.

Lemma C9_witness :
  (∃ a, out_res (authenticate Runs.lonely_env Runs.on_behalf_request module_heap)
        = Raise a
     ∧ a ≠ FAILED
     ∧ out_heap (authenticate Runs.lonely_env Runs.on_behalf_request module_heap)
       !! a
       = Some {| exc_cls := AuthenticationFailed;
                 exc_detail := "On behalf of user was not found." |}
     ∧ out_heap (authenticate Runs.lonely_env Runs.on_behalf_request module_heap)
       !! FAILED = Some failed_obj)
  ∧ out_res (authenticate Runs.env Runs.on_behalf_request module_heap)
    = Ret (Some (Tests.test_user, None)).
Proof.
  split.
  - apply (C9_on_behalf_of Runs.lonely_env Runs.on_behalf_request module_heap
             Runs.valid_stage "42" PyNone);
      [reflexivity | compute_stage | reflexivity | reflexivity | reflexivity
      | reflexivity].
  - apply (C9_on_behalf_of Runs.env Runs.on_behalf_request module_heap
             Runs.valid_stage "42" Tests.test_user);
      [reflexivity | compute_stage | reflexivity | reflexivity | reflexivity
      | reflexivity].
Defined.

(** * The whole of a run *)

Section Paths.

Variable self : Env.
Variable request : HttpRequest.
Variable h : heap.

(** What the expiry check does, case by case. *)
Lemma check_expires_cases :
  (headers_get "(expires)" request = None
   ∧ check_expires self request h
     = MkOut (Ret tt) (h ++ [type_error_obj]) [EvExpires None])
  ∨ (∃ v, headers_get "(expires)" request = Some v
        ∧ int_of_str v = None
        ∧ check_expires self request h
          = MkOut (Raise (length h)) (h ++ [value_error_obj])
              [EvExpires (Some v)])
  ∨ (∃ v, headers_get "(expires)" request = Some v
        ∧ int_of_str v = Some 0
        ∧ check_expires self request h
          = MkOut (Ret tt) h [EvExpires (Some v)])
  ∨ (∃ v n, headers_get "(expires)" request = Some v
        ∧ int_of_str v = Some n ∧ n ≠ 0
        ∧ (time_time self <= inject_Z n)%Q
        ∧ check_expires self request h
          = MkOut (Ret tt) h [EvExpires (Some v); EvClock])
  ∨ (∃ v n, expired self request v n
        ∧ check_expires self request h
          = MkOut (Raise FAILED) h [EvExpires (Some v); EvClock]).
Proof.
  destruct (headers_get "(expires)" request) as [v|] eqn:He.
  2: { left. split; [done|]. by apply check_expires_absent. }
  right. destruct (int_of_str v) as [n|] eqn:Hn.
  2: { left. exists v. repeat split; [done..|].
       by apply check_expires_not_a_number. }
  right. rewrite (check_expires_number _ _ _ v n He Hn).
  destruct (n =? 0) eqn:Hz.
  { left. apply Z.eqb_eq in Hz. subst n. by exists v. }
  apply Z.eqb_neq in Hz. right.
  destruct (float_gt_int (time_time self) n) eqn:Hgt.
  - right. exists v, n. split; [|done].
    apply float_gt_int_spec in Hgt. by repeat split.
  - left. exists v, n. apply float_gt_int_false in Hgt. by repeat split.
Qed.

(** The expiry check returns exactly when the signature is not expired;
    it then leaves behind at most the [TypeError] of [int(None)]. *)
Lemma check_expires_returns (h1 : heap) (t1 : list event) :
  check_expires self request h = MkOut (Ret tt) h1 t1 →
  not_expired self request
  ∧ (h1 = h ∨ h1 = (h ++ [type_error_obj])%list)
  ∧ (t1 = [EvExpires (headers_get "(expires)" request)]
     ∨ t1 = [EvExpires (headers_get "(expires)" request); EvClock]
       ∧ ∃ v n, headers_get "(expires)" request = Some v
                ∧ int_of_str v = Some n ∧ n ≠ 0).
Proof.
  intros Hc.
  destruct check_expires_cases
    as [(He & Hr) | [(v & He & Hn & Hr) | [(v & He & Hn & Hr)
       | [(v & n & He & Hn & Hz & Hle & Hr) | (v & n & Hx & Hr)]]]];
    rewrite Hr in Hc; try discriminate Hc;
    injection Hc as <- <-; rewrite ?He.
  - split; [by apply expires_absent|]. split; [by right | by left].
  - split; [by apply (expires_zero _ _ v)|]. split; [by left | by left].
  - split; [by apply (expires_ahead _ _ v n)|]. split; [by left|].
    right. split; [done|]. by exists v, n.
Qed.

Lemma not_expired_returns :
  not_expired self request →
  out_res (check_expires self request h) = Ret tt.
Proof.
  intros Hne.
  destruct check_expires_cases
    as [(He & Hr) | [(v & He & Hn & Hr) | [(v & He & Hn & Hr)
       | [(v & n & He & Hn & Hz & Hle & Hr) | (v & n & Hx & Hr)]]]];
    rewrite Hr; try done.
  - destruct Hne as [He' | v' He' Hn' | v' n' He' Hn' Hle']; congruence.
  - destruct Hx as (He & Hn & Hz & Hlt).
    destruct Hne as [He' | v' He' Hn' | v' n' He' Hn' Hle'].
    + congruence.
    + rewrite He in He'. injection He' as <-. congruence.
    + rewrite He in He'. injection He' as <-.
      rewrite Hn in Hn'. injection Hn' as <-.
      by apply Qlt_not_le in Hlt.
Qed.

(** The end of a run that has passed the expiry check. *)
Lemma path_after_expiry (s : Stage) (h1 : heap) (t1 : list event) :
  verified self request s →
  check_expires self request h = MkOut (Ret tt) h1 t1 →
  path self request h
    (prepend (trace_verify self request s ++ t1)
       (on_behalf_of self request (st_user s) (st_fields s) h1)).
Proof.
  intros Hv Hc.
  destruct (headers_get "On-Behalf-Of" request) as [user_id|] eqn:Ho.
  - rewrite (on_behalf_of_present _ _ _ _ _ user_id Ho).
    destruct (fetch_on_behalf_of_user self user_id) as [u | e] eqn:Hf.
    + destruct (truthy u) eqn:Ht; unfold prepend; cbn [out_res out_heap out_trace];
        rewrite <- app_assoc.
      * by apply (path_impersonated _ _ _ s h1 t1 user_id u).
      * by apply (path_nobody _ _ _ s h1 t1 user_id u).
    + unfold prepend; cbn [out_res out_heap out_trace]. rewrite <- app_assoc.
      by apply (path_impersonation_raises _ _ _ s h1 t1 user_id e).
  - rewrite (on_behalf_of_absent _ _ _ _ _ (st_keyid s) Ho) by apply Hv.
    unfold prepend; cbn [out_res out_heap out_trace]. rewrite app_nil_r.
    by apply path_authenticated.
Qed.

(** Every run goes one of the ways of [path]. *)
Lemma authenticate_path : path self request h (authenticate self request h).
Proof.
  destruct (decide (get_authorization_header request = EmptyString)) as [H0 | Hne].
  { rewrite authenticate_no_header by done. by apply path_no_header. }
  destruct (parse_authorization_header self (get_authorization_header request))
    as [[scheme fields] | e] eqn:Hp.
  2: { rewrite (authenticate_parse_raises _ _ _ e) by done.
       by apply path_parse_raises. }
  destruct (decide (lower scheme = "signature")) as [Hs | Hs].
  2: { rewrite (authenticate_foreign _ _ _ scheme fields) by done.
       by apply (path_foreign _ _ _ scheme fields). }
  pose (s0 := {| st_scheme := scheme; st_fields := fields;
                 st_keyid := EmptyString; st_algorithm := EmptyString;
                 st_signature := EmptyString;
                 st_user := PyNone; st_secret := PyNone |}).
  destruct (decide (required_fields ⊆ dom fields)) as [Hsub | Hsub].
  2: { rewrite (authenticate_malformed _ _ _ s0) by done.
       by apply (path_malformed _ _ _ s0). }
  assert (∃ k, fields !! "keyid" = Some k) as [k Hk].
  { apply elem_of_dom, Hsub, elem_of_required_fields. by left. }
  assert (∃ a, fields !! "algorithm" = Some a) as [a Ha].
  { apply elem_of_dom, Hsub, elem_of_required_fields. right; by left. }
  assert (∃ g, fields !! "signature" = Some g) as [g Hg].
  { apply elem_of_dom, Hsub, elem_of_required_fields. right; by right. }
  destruct (fetch_user_data self k a) as [[u sec] | e] eqn:Hf.
  2: { pose (s1 := {| st_scheme := scheme; st_fields := fields; st_keyid := k;
                      st_algorithm := a; st_signature := g;
                      st_user := PyNone; st_secret := PyNone |}).
       rewrite (authenticate_fetch_raises _ _ _ s1 e) by done.
       by apply (path_lookup_raises _ _ _ s1 e). }
  pose (s := {| st_scheme := scheme; st_fields := fields; st_keyid := k;
                st_algorithm := a; st_signature := g;
                st_user := u; st_secret := sec |}).
  assert (looked_up self request s) as Hlook by done.
  destruct (truthy u && truthy sec) eqn:Ht.
  2: { rewrite (authenticate_falsy _ _ _ s Hlook Ht). by apply path_falsy. }
  apply andb_true_iff in Ht as [Hu Hsec].
  destruct (HeaderVerifier_init self (verifier_of self request s))
    as [[] | e] eqn:Hi.
  2: { rewrite (authenticate_init_raises _ _ _ s e) by done.
       by apply path_verifier_raises. }
  assert (verifier_built self request s) as Hb by done.
  destruct (HeaderVerifier_verify self (verifier_of self request s))
    as [[|] | e] eqn:Hv.
  2: { rewrite (authenticate_verify_false _ _ _ s) by done.
       by apply path_verify_false. }
  2: { rewrite (authenticate_verify_raises _ _ _ s e) by done.
       by apply path_verify_raises. }
  assert (verified self request s) as Hver by done.
  destruct check_expires_cases
    as [(He & Hr) | [(v & He & Hn & Hr) | [(v & He & Hn & Hr)
       | [(v & n & He & Hn & Hz & Hle & Hr) | (v & n & Hx & Hr)]]]].
  - rewrite (authenticate_not_expired _ _ _ s Hver) by (by rewrite Hr).
    rewrite Hr. cbn [out_heap out_trace]. by apply path_after_expiry.
  - rewrite (authenticate_expires_not_a_number _ _ _ s v) by done.
    by apply path_not_a_number.
  - rewrite (authenticate_not_expired _ _ _ s Hver) by (by rewrite Hr).
    rewrite Hr. cbn [out_heap out_trace]. by apply path_after_expiry.
  - rewrite (authenticate_not_expired _ _ _ s Hver) by (by rewrite Hr).
    rewrite Hr. cbn [out_heap out_trace]. by apply path_after_expiry.
  - rewrite (authenticate_expired _ _ _ s v n) by done.
    by apply (path_expired _ _ _ s v n).
Qed.

End Paths.

(** * Further properties of [authenticate] *)

(** [by_path self request h] considers the ways a run can go. *)
Ltac by_path self request h :=
  let Hp := fresh "Hp" in
  let o := fresh "o" in
  let Ho := fresh "Ho" in
  pose proof (authenticate_path self request h) as Hp;
  remember (authenticate self request h) as o eqn:Ho;
  clear Ho; destruct Hp; cbn [out_res out_heap out_trace] in *.

(** A verified request that is not expired and has no [On-Behalf-Of]
    header is authenticated as the user that the lookup returned, with the
    [keyId] of the header; the run raises nothing and [FAILED] is as it
    was. *)
Theorem authenticate_accepts (self : Env) (request : HttpRequest) (h : heap)
    (s : Stage) :
  loaded h →
  verified self request s →
  not_expired self request →
  headers_get "On-Behalf-Of" request = None →
  out_res (authenticate self request h)
  = Ret (Some (st_user s, Some (st_keyid s)))
  ∧ out_heap (authenticate self request h) !! FAILED = Some failed_obj.
Proof.
  intros Hl Hv Hne Ho.
  rewrite (authenticate_not_expired _ _ _ s Hv)
    by (by apply not_expired_returns).
  rewrite (on_behalf_of_absent _ _ _ _ _ (st_keyid s) Ho) by apply Hv.
  cbn [prepend out_res out_heap]. split; [done|].
  by apply check_expires_loaded.
Qed.

Lemma authenticate_accepts_witness :
  out_res (authenticate Runs.env MoreRuns.expires_later_request module_heap)
  = Ret (Some (Tests.test_user, Some Tests.KEYID))
  ∧ out_heap (authenticate Runs.env MoreRuns.expires_later_request module_heap)
    !! FAILED = Some failed_obj.
Proof.
  apply (authenticate_accepts Runs.env MoreRuns.expires_later_request
           module_heap Runs.valid_stage).
  - reflexivity.
  - compute_stage.
  - apply (expires_ahead _ _ "1581728400" 1581728400);
      [reflexivity | reflexivity | vm_compute; discriminate].
  - reflexivity.
Defined.

(** [authenticate] returns a user only for a verified request that is not
    expired: the credential lookup returned a truthy user and a truthy
    secret for the [keyId] and the algorithm of the header, and [verify]
    returned [True].  The user returned is that user, with the [keyId] of
    the header, when there is no [On-Behalf-Of] header; otherwise it is the
    truthy result of the impersonation lookup, with [None]. *)
Theorem authenticated_only_if_verified (self : Env) (request : HttpRequest)
    (h : heap) (u : pyval) (k : option string) :
  out_res (authenticate self request h) = Ret (Some (u, k)) →
  ∃ s, verified self request s
    ∧ not_expired self request
    ∧ ((headers_get "On-Behalf-Of" request = None
        ∧ u = st_user s ∧ k = Some (st_keyid s))
       ∨ (∃ user_id,
            headers_get "On-Behalf-Of" request = Some user_id
            ∧ fetch_on_behalf_of_user self user_id = CbRet u
            ∧ truthy u = true ∧ k = None)).
Proof.
  by_path self request h; intros Hr; try discriminate Hr.
  - injection Hr as <- <-. exists s. split; [done|].
    split; [by eapply check_expires_returns|]. by left.
  - injection Hr as <- <-. exists s. split; [done|].
    split; [by eapply check_expires_returns|]. right. by exists user_id.
Qed.

Lemma authenticated_only_if_verified_witness :
  ∃ s, verified Runs.env Runs.on_behalf_request s
    ∧ not_expired Runs.env Runs.on_behalf_request
    ∧ ((headers_get "On-Behalf-Of" Runs.on_behalf_request = None
        ∧ Tests.test_user = st_user s ∧ None = Some (st_keyid s))
       ∨ (∃ user_id,
            headers_get "On-Behalf-Of" Runs.on_behalf_request = Some user_id
            ∧ fetch_on_behalf_of_user Runs.env user_id = CbRet Tests.test_user
            ∧ truthy Tests.test_user = true ∧ @None string = None)).
Proof.
  apply (authenticated_only_if_verified Runs.env Runs.on_behalf_request
           module_heap).
  vm_compute. reflexivity.
Defined.

(** [authenticate] returns [None] only when no credential is presented:
    once the scheme of the header is [Signature], the request is never
    handed on to another authenticator. *)
Theorem None_only_if_no_credential (self : Env) (request : HttpRequest)
    (h : heap) :
  out_res (authenticate self request h) = Ret None →
  no_credential self request.
Proof.
  by_path self request h; intros Hr; try discriminate Hr.
  - unfold get_authorization_header in *.
    destruct (headers_get "Authorization" request) as [v|] eqn:Hv.
    + apply header_empty. cbn in *. congruence.
    + by apply header_absent.
  - by apply (header_foreign _ _ scheme fields).
Qed.

Lemma None_only_if_no_credential_witness :
  no_credential Runs.env Runs.foreign_request.
Proof.
  apply (None_only_if_no_credential Runs.env Runs.foreign_request module_heap).
  vm_compute. reflexivity.
Defined.

(** ** Which collaborator is called, and when *)

(** [split_in H] turns a membership in an explicit trace into its cases. *)
Ltac split_in H :=
  unfold trace_verify, trace_lookup in H;
  repeat first
    [ apply elem_of_app in H as [H | H]
    | apply elem_of_cons in H as [H | H]
    | apply elem_of_nil in H; destruct H ];
  try discriminate H.

(** The events of a check of [(expires)] that returned. *)
Lemma check_expires_events (self : Env) (request : HttpRequest) (h h1 : heap)
    (t1 : list event) (e : event) :
  check_expires self request h = MkOut (Ret tt) h1 t1 →
  e ∈ t1 →
  e = EvExpires (headers_get "(expires)" request)
  ∨ e = EvClock
    ∧ ∃ v n, headers_get "(expires)" request = Some v
             ∧ int_of_str v = Some n ∧ n ≠ 0.
Proof.
  intros Hc Hin.
  destruct (check_expires_returns _ _ _ _ _ Hc) as (_ & _ & [-> | [-> Hn]]);
    split_in Hin; auto.
Qed.

(** [not_an_expiry_event H] closes a goal in which [H] puts an event that
    is not of the expiry check among the events of that check. *)
Ltac not_an_expiry_event H :=
  match goal with
  | Hc : check_expires _ _ _ = _ |- _ =>
      let He := fresh in
      destruct (check_expires_events _ _ _ _ _ _ Hc H) as [He | [He _]];
      discriminate He
  end.

Lemma looked_up_well_formed (self : Env) (request : HttpRequest) (s : Stage) :
  looked_up self request s →
  signature_scheme self request s ∧ required_present s.
Proof. by intros (? & ? & _). Qed.

Lemma verifier_built_well_formed (self : Env) (request : HttpRequest)
    (s : Stage) :
  verifier_built self request s →
  signature_scheme self request s ∧ required_present s.
Proof. intros (Hl & _). by apply looked_up_well_formed. Qed.

Lemma verified_well_formed (self : Env) (request : HttpRequest) (s : Stage) :
  verified self request s →
  signature_scheme self request s ∧ required_present s.
Proof. intros (Hb & _). by apply verifier_built_well_formed. Qed.

(** The credential lookup is called only for a header of the [Signature]
    scheme that has the three required parameters, and with the [keyid] and
    the [algorithm] of that header. *)
Theorem lookup_only_for_well_formed (self : Env) (request : HttpRequest)
    (h : heap) (keyid algorithm : string) :
  EvFetchUserData keyid algorithm ∈ out_trace (authenticate self request h) →
  ∃ s, signature_scheme self request s
    ∧ required_present s
    ∧ st_keyid s = keyid ∧ st_algorithm s = algorithm.
Proof.
  by_path self request h; intros Hin; split_in Hin.
  all: try (not_an_expiry_event Hin).
  all: injection Hin as -> ->; exists s.
  all: assert (signature_scheme self request s ∧ required_present s) as [? ?]
    by eauto using looked_up_well_formed, verifier_built_well_formed,
                   verified_well_formed.
  all: done.
Qed.

Lemma lookup_only_for_well_formed_witness :
  ∃ s, signature_scheme Runs.env Runs.other_key_request s
    ∧ required_present s
    ∧ st_keyid s = "other-key" ∧ st_algorithm s = "hmac-sha256".
Proof.
  apply (lookup_only_for_well_formed Runs.env Runs.other_key_request
           module_heap).
  apply list_elem_of_In. vm_compute. right. left. reflexivity.
Defined.

(** The impersonation lookup is called only for a verified request that
    is not expired, and with the value of its [On-Behalf-Of] header. *)
Theorem impersonation_only_after_verification (self : Env)
    (request : HttpRequest) (h : heap) (user_id : string) :
  EvFetchOnBehalfOf user_id ∈ out_trace (authenticate self request h) →
  ∃ s, verified self request s
    ∧ not_expired self request
    ∧ headers_get "On-Behalf-Of" request = Some user_id.
Proof.
  by_path self request h; intros Hin; split_in Hin.
  all: try (not_an_expiry_event Hin).
  all: injection Hin as ->; exists s; split; [done|];
    split; [by eapply check_expires_returns | done].
Qed.

Lemma impersonation_only_after_verification_witness :
  ∃ s, verified Runs.env Runs.on_behalf_request s
    ∧ not_expired Runs.env Runs.on_behalf_request
    ∧ headers_get "On-Behalf-Of" Runs.on_behalf_request = Some "42".
Proof.
  apply (impersonation_only_after_verification Runs.env Runs.on_behalf_request
           module_heap).
  apply list_elem_of_In. vm_compute. do 5 right. left. reflexivity.
Defined.

(** The clock is read only for a verified request whose [(expires)] is a
    number other than zero. *)
Theorem clock_only_for_numeric_expires (self : Env) (request : HttpRequest)
    (h : heap) :
  EvClock ∈ out_trace (authenticate self request h) →
  ∃ s v n, verified self request s
    ∧ headers_get "(expires)" request = Some v
    ∧ int_of_str v = Some n
    ∧ n ≠ 0.
Proof.
  by_path self request h; intros Hin; split_in Hin.
  all: try match goal with
       | Hc : check_expires _ _ _ = _ |- _ =>
           destruct (check_expires_events _ _ _ _ _ _ Hc Hin)
             as [He | [_ (v & n & ?)]];
           [discriminate He | by exists s, v, n]
       end.
  exists s, v, n. split; [done|]. destruct H0 as (? & ? & ? & _). done.
Qed.

Lemma clock_only_for_numeric_expires_witness :
  ∃ s v n, verified Runs.env Runs.expired_request s
    ∧ headers_get "(expires)" Runs.expired_request = Some v
    ∧ int_of_str v = Some n
    ∧ n ≠ 0.
Proof.
  apply (clock_only_for_numeric_expires Runs.env Runs.expired_request
           module_heap).
  apply list_elem_of_In. vm_compute. do 5 right. left. reflexivity.
Defined.

(** The verifier is built only after a credential lookup that returned
    a truthy user and a truthy secret, and it is given the headers of the
    request, that secret, the required headers of the class, the method in
    lower case and the full path. *)
Theorem verifier_arguments (self : Env) (request : HttpRequest) (h : heap)
    (hs : HeaderVerifier) :
  EvNewVerifier hs ∈ out_trace (authenticate self request h) →
  ∃ s, looked_up self request s
    ∧ truthy (st_user s) = true ∧ truthy (st_secret s) = true
    ∧ hs = {| hv_headers := headers request;
              hv_secret := st_secret s;
              hv_required_headers := required_headers self;
              hv_method := lower (method request);
              hv_path := full_path request |}.
Proof.
  by_path self request h; intros Hin; split_in Hin.
  all: try (not_an_expiry_event Hin).
  all: assert (hs = verifier_of self request s) as -> by congruence.
  all: exists s.
  all: assert (looked_up self request s
               ∧ truthy (st_user s) = true ∧ truthy (st_secret s) = true)
         as (? & ? & ?);
    [| done].
  all: first
    [ split; [assumption | split; assumption]
    | destruct H as ((Hl & Hu & Hs & _) & _);
      split; [assumption | split; assumption]
    | destruct H as (Hl & Hu & Hs & _);
      split; [assumption | split; assumption] ].
Qed.

Lemma verifier_arguments_witness :
  ∃ s, looked_up Runs.env Runs.valid_request s
    ∧ truthy (st_user s) = true ∧ truthy (st_secret s) = true
    ∧ verifier_of Runs.env Runs.valid_request Runs.valid_stage
      = {| hv_headers := headers Runs.valid_request;
           hv_secret := st_secret s;
           hv_required_headers := required_headers Runs.env;
           hv_method := lower (method Runs.valid_request);
           hv_path := full_path Runs.valid_request |}.
Proof.
  apply (verifier_arguments Runs.env Runs.valid_request module_heap).
  apply list_elem_of_In. vm_compute. do 2 right. left. reflexivity.
Defined.

(** In every run the steps come in one order, each at most once: the
    parser, the credential lookup, the construction of the verifier,
    [verify], the read of [(expires)], the clock, the impersonation
    lookup. *)
Theorem steps_in_order (self : Env) (request : HttpRequest) (h : heap) :
  ascending (rank <$> out_trace (authenticate self request h)) = true.
Proof.
  by_path self request h; try reflexivity.
  all: destruct (check_expires_returns _ _ _ _ _ H0) as (_ & _ & [-> | [-> _]]);
    reflexivity.
Qed.

(** ** What is raised, and what becomes of the heap *)

Lemma not_subseteq_malformed (fields : gmap string string) :
  ¬ required_fields ⊆ dom fields → malformed fields.
Proof.
  intros Hsub.
  destruct (fields !! "keyid") eqn:Hk.
  2: { apply (field_missing _ "keyid"); [|done].
       apply elem_of_required_fields. by left. }
  destruct (fields !! "algorithm") eqn:Ha.
  2: { apply (field_missing _ "algorithm"); [|done].
       apply elem_of_required_fields. right; by left. }
  destruct (fields !! "signature") eqn:Hg.
  2: { apply (field_missing _ "signature"); [|done].
       apply elem_of_required_fields. right; by right. }
  exfalso. apply Hsub. intros x Hx. apply elem_of_dom.
  apply elem_of_required_fields in Hx.
  destruct Hx as [-> | [-> | ->]]; eauto.
Qed.

Lemma check_expires_returns_loaded (self : Env) (request : HttpRequest)
    (h h1 : heap) (t1 : list event) :
  loaded h →
  check_expires self request h = MkOut (Ret tt) h1 t1 →
  loaded h1.
Proof.
  intros Hl Hc.
  destruct (check_expires_returns _ _ _ _ _ Hc) as (_ & [-> | ->] & _);
    [done | by apply loaded_app].
Qed.

(** [FAILED] is raised for the generic causes only: the parameters are
    empty or lack a required key, a half of the credential is falsy,
    [verify] returned [False], or the signature is expired. *)
Theorem FAILED_only_for_generic_cause (self : Env) (request : HttpRequest)
    (h : heap) :
  loaded h →
  out_res (authenticate self request h) = Raise FAILED →
  ∃ s, generic_cause self request s.
Proof.
  intros Hl.
  by_path self request h; intros Hr; try discriminate Hr.
  all: try (injection Hr as Hr; by apply loaded_fresh in Hr).
  all: try (injection Hr as Hr;
            match goal with
            | Hc : check_expires _ _ _ = _ |- _ =>
                apply (check_expires_returns_loaded _ _ _ _ _ Hl) in Hc;
                by apply loaded_fresh in Hr
            end).
  - exists s. apply cause_malformed; [done|]. by apply not_subseteq_malformed.
  - exists s. apply cause_lookup; [done|].
    destruct (truthy (st_user s)); [by right | by left].
  - exists s. by apply cause_signature.
  - exists s. by apply (cause_expired _ _ _ v n).
Qed.

Lemma FAILED_only_for_generic_cause_witness :
  ∃ s, generic_cause Runs.env Runs.expired_request s.
Proof.
  apply (FAILED_only_for_generic_cause Runs.env Runs.expired_request
           module_heap).
  - reflexivity.
  - vm_compute. reflexivity.
Defined.

(** A verified request is rejected with [FAILED] exactly when its
    [(expires)] is a number other than zero that the clock has passed: an
    [(expires)] that is absent, zero, not a number, or not yet reached
    never gives the generic rejection. *)
Theorem verified_rejected_iff_expired (self : Env) (request : HttpRequest)
    (h : heap) (s : Stage) :
  loaded h →
  verified self request s →
  out_res (authenticate self request h) = Raise FAILED
  ↔ ∃ v n, expired self request v n.
Proof.
  intros Hl Hv. split.
  - intros Hr.
    destruct (check_expires_cases self request h)
      as [(He & Hc) | [(v & He & Hn & Hc) | [(v & He & Hn & Hc)
         | [(v & n & He & Hn & Hz & Hle & Hc) | (v & n & Hx & Hc)]]]].
    5: by exists v, n.
    2: { rewrite (authenticate_expires_not_a_number _ _ _ s v) in Hr by done.
         injection Hr as Hr. by apply loaded_fresh in Hr. }
    all: exfalso.
    all: pose proof (check_expires_returns_loaded _ _ _ _ _ Hl Hc) as Hl1.
    all: rewrite (authenticate_not_expired _ _ _ s Hv) in Hr by (by rewrite Hc).
    all: rewrite Hc in Hr; cbn [out_heap out_trace] in Hr.
    all: destruct (headers_get "On-Behalf-Of" request) as [user_id|] eqn:Ho.
    all: try (rewrite (on_behalf_of_absent _ _ _ _ _ (st_keyid s) Ho) in Hr
                by apply Hv; discriminate Hr).
    all: rewrite (on_behalf_of_present _ _ _ _ _ user_id Ho) in Hr.
    all: destruct (fetch_on_behalf_of_user self user_id) as [u | e];
      [destruct (truthy u)|]; cbn [prepend out_res] in Hr;
      try discriminate Hr.
    all: injection Hr as Hr; by apply loaded_fresh in Hr.
  - intros (v & n & Hx). by rewrite (authenticate_expired _ _ _ s v n).
Qed.

Lemma verified_rejected_iff_expired_witness :
  out_res (authenticate Runs.env Runs.expired_request module_heap)
  = Raise FAILED
  ↔ ∃ v n, expired Runs.env Runs.expired_request v n.
Proof.
  apply (verified_rejected_iff_expired Runs.env Runs.expired_request
           module_heap Runs.valid_stage).
  - reflexivity.
  - compute_stage.
Defined.

(** A run never touches an exception object that was there before it: the
    heap it leaves is the heap it found with at most two new objects, and
    what it raises is [FAILED] or one of the new objects. *)
Theorem heap_only_grows (self : Env) (request : HttpRequest) (h : heap) :
  ∃ new : list exc_obj,
    out_heap (authenticate self request h) = (h ++ new)%list
    ∧ (length new ≤ 2)%nat
    ∧ ∀ a, out_res (authenticate self request h) = Raise a →
           a = FAILED
           ∨ ((length h ≤ a)%nat
              ∧ is_Some (out_heap (authenticate self request h) !! a)).
Proof.
  by_path self request h.
  all: try (exists []; rewrite app_nil_r; split; [done|]; split; [cbn; lia|];
            intros a Ha; try discriminate Ha; injection Ha as <-; by left).
  all: try (eexists [_]; split; [done|]; split; [cbn; lia|];
            intros a Ha; injection Ha as <-; right; split; [lia|];
            rewrite lookup_fresh; by eexists).
  all: destruct (check_expires_returns _ _ _ _ _ H0) as (_ & [-> | ->] & _).
  all: try (exists []; rewrite app_nil_r; split; [done|]; split; [cbn; lia|];
            intros a Ha; discriminate Ha).
  all: try (eexists [_]; split; [done|]; split; [cbn; lia|];
            intros a Ha; try discriminate Ha; injection Ha as <-; right;
            split; [lia|]; rewrite lookup_fresh; by eexists).
  - exists [type_error_obj]. split; [done|]. split; [cbn; lia|].
    intros a Ha. discriminate Ha.
  - exists [type_error_obj]. split; [done|]. split; [cbn; lia|].
    intros a Ha. discriminate Ha.
  - exists [type_error_obj; not_found_obj]. rewrite <- app_assoc.
    split; [done|]. split; [cbn; lia|].
    intros a Ha. injection Ha as <-. right. split; [rewrite length_app; lia|].
    rewrite (app_assoc h [type_error_obj] [not_found_obj]), lookup_fresh.
    by eexists.
  - exists [type_error_obj; e]. rewrite <- app_assoc.
    split; [done|]. split; [cbn; lia|].
    intros a Ha. injection Ha as <-. right. split; [rewrite length_app; lia|].
    rewrite (app_assoc h [type_error_obj] [e]), lookup_fresh.
    by eexists.
Qed.

(** ** Errors of the parser and of the base class *)

(** An error of the parser reaches the caller as it is: the object raised
    is the parser's, not [FAILED], and no other collaborator is called. *)
Theorem parser_error_propagates (self : Env) (request : HttpRequest)
    (h : heap) (e : exc_obj) :
  loaded h →
  get_authorization_header request ≠ EmptyString →
  parse_authorization_header self (get_authorization_header request)
  = CbRaise e →
  ∃ a, out_res (authenticate self request h) = Raise a
    ∧ a ≠ FAILED
    ∧ out_heap (authenticate self request h) !! a = Some e
    ∧ out_heap (authenticate self request h) !! FAILED = Some failed_obj
    ∧ out_trace (authenticate self request h)
      = [EvParse (get_authorization_header request)].
Proof.
  intros Hl Hne Hp. rewrite (authenticate_parse_raises _ _ _ e Hne Hp).
  exists (length h). cbn [out_res out_heap out_trace].
  split; [done|]. split; [by apply loaded_fresh|].
  split; [apply lookup_fresh|]. split; [by apply loaded_app | done].
Qed.

Lemma parser_error_propagates_witness :
  ∃ a, out_res (authenticate MoreRuns.deaf_env Runs.valid_request module_heap)
       = Raise a
    ∧ a ≠ FAILED
    ∧ out_heap (authenticate MoreRuns.deaf_env Runs.valid_request module_heap)
      !! a = Some MoreRuns.decode_error_obj
    ∧ out_heap (authenticate MoreRuns.deaf_env Runs.valid_request module_heap)
      !! FAILED = Some failed_obj
    ∧ out_trace (authenticate MoreRuns.deaf_env Runs.valid_request module_heap)
      = [EvParse (get_authorization_header Runs.valid_request)].
Proof.
  apply parser_error_propagates.
  - reflexivity.
  - vm_compute. discriminate.
  - reflexivity.
Defined.

(** Without a subclass, the methods of lines 44-50 raise
    [NotImplementedError], and [authenticate] lets it through.  With the
    [fetch_user_data] of the base class, every header of the [Signature]
    scheme that has the required parameters gives [NotImplementedError],
    before any verifier is built; with its [fetch_on_behalf_of_user], so
    does every verified request that is not expired and has an
    [On-Behalf-Of] header. *)
Theorem base_class_raises_NotImplementedError (self : Env)
    (request : HttpRequest) (h : heap) (s : Stage) :
  loaded h →
  (fetch_user_data self = base_fetch_user_data →
   signature_scheme self request s →
   required_present s →
   out_res (authenticate self request h) = Raise (length h)
   ∧ length h ≠ FAILED
   ∧ out_heap (authenticate self request h) !! length h
     = Some not_implemented_obj
   ∧ out_trace (authenticate self request h) = trace_lookup request s)
  ∧ (∀ user_id,
       fetch_on_behalf_of_user self = base_fetch_on_behalf_of_user →
       verified self request s →
       not_expired self request →
       headers_get "On-Behalf-Of" request = Some user_id →
       ∃ a, out_res (authenticate self request h) = Raise a
         ∧ a ≠ FAILED
         ∧ out_heap (authenticate self request h) !! a
           = Some not_implemented_obj).
Proof.
  intros Hl. split.
  - intros Hbase Hsch Hreq.
    rewrite (authenticate_fetch_raises _ _ _ s not_implemented_obj);
      [| done | done | by rewrite Hbase].
    cbn [out_res out_heap out_trace]. split; [done|].
    split; [by apply loaded_fresh|]. split; [apply lookup_fresh | done].
  - intros user_id Hbase Hv Hne Ho.
    rewrite (authenticate_not_expired _ _ _ s Hv)
      by (by apply not_expired_returns).
    rewrite (on_behalf_of_present _ _ _ _ _ user_id Ho), Hbase.
    unfold base_fetch_on_behalf_of_user. cbn [prepend out_res out_heap].
    eexists. split; [done|].
    split; [by apply loaded_fresh, check_expires_loaded|]. apply lookup_fresh.
Qed.

Lemma base_class_raises_NotImplementedError_witness :
  (out_res (authenticate MoreRuns.base_env Runs.valid_request module_heap)
   = Raise (length module_heap)
   ∧ length module_heap ≠ FAILED
   ∧ out_heap (authenticate MoreRuns.base_env Runs.valid_request module_heap)
     !! length module_heap = Some not_implemented_obj
   ∧ out_trace (authenticate MoreRuns.base_env Runs.valid_request module_heap)
     = trace_lookup Runs.valid_request Runs.nobody_stage)
  ∧ ∃ a, out_res (authenticate MoreRuns.half_env Runs.on_behalf_request
                    module_heap) = Raise a
      ∧ a ≠ FAILED
      ∧ out_heap (authenticate MoreRuns.half_env Runs.on_behalf_request
                    module_heap) !! a = Some not_implemented_obj.
Proof.
  split.
  - apply (base_class_raises_NotImplementedError MoreRuns.base_env
             Runs.valid_request module_heap Runs.nobody_stage);
      [reflexivity | reflexivity | compute_stage | compute_stage].
  - apply (proj2 (base_class_raises_NotImplementedError MoreRuns.half_env
                    Runs.on_behalf_request module_heap Runs.valid_stage
                    eq_refl) "42");
      [reflexivity | compute_stage | | reflexivity].
    apply expires_absent. reflexivity.
Defined.

(** The subclass of [tests.py] tells an unknown key from a bad signature:
    for every header of the [Signature] scheme with the required parameters
    whose [keyId] is not "some-key", whatever the verifier, the
    impersonation lookup and the clock are, [authenticate] raises the
    [AuthenticationFailed] "Bad key ID" of its [fetch_user_data], not
    [FAILED], and no verifier is built. *)
Theorem tests_subclass_reveals_unknown_key
    (verify : HeaderVerifier → cb_result bool)
    (obo : string → cb_result pyval) (now : Q)
    (request : HttpRequest) (h : heap) (s : Stage) :
  loaded h →
  signature_scheme (Tests.api verify obo now) request s →
  required_present s →
  st_keyid s ≠ Tests.KEYID →
  out_res (authenticate (Tests.api verify obo now) request h)
  = Raise (length h)
  ∧ length h ≠ FAILED
  ∧ out_heap (authenticate (Tests.api verify obo now) request h) !! length h
    = Some {| exc_cls := AuthenticationFailed; exc_detail := "Bad key ID" |}
  ∧ out_trace (authenticate (Tests.api verify obo now) request h)
    = trace_lookup request s.
Proof.
  intros Hl Hsch Hreq Hk.
  rewrite (authenticate_fetch_raises _ _ _ s
             {| exc_cls := AuthenticationFailed; exc_detail := "Bad key ID" |});
    [| done | done |].
  - cbn [out_res out_heap out_trace]. split; [done|].
    split; [by apply loaded_fresh|]. split; [apply lookup_fresh | done].
  - cbn [fetch_user_data Tests.api]. unfold Tests.api_fetch_user_data.
    by rewrite (String_eqb_false _ _ Hk).
Qed.

Lemma tests_subclass_reveals_unknown_key_witness :
  out_res (authenticate Runs.env Runs.other_key_request module_heap)
  = Raise (length module_heap)
  ∧ length module_heap ≠ FAILED
  ∧ out_heap (authenticate Runs.env Runs.other_key_request module_heap)
    !! length module_heap
    = Some {| exc_cls := AuthenticationFailed; exc_detail := "Bad key ID" |}
  ∧ out_trace (authenticate Runs.env Runs.other_key_request module_heap)
    = trace_lookup Runs.other_key_request Runs.other_key_stage.
Proof.
  apply (tests_subclass_reveals_unknown_key Runs.accept Runs.find_user
           (inject_Z Runs.frozen) Runs.other_key_request module_heap
           Runs.other_key_stage);
    [reflexivity | compute_stage | compute_stage | vm_compute; discriminate].
Defined.

(** * The challenge *)

Lemma append_cancel_l (p a b : string) : p ++ a = p ++ b → a = b.
Proof.
  induction p as [|c p IH]; cbn [String.append]; [done|].
  intros H. injection H as H. by apply IH.
Qed.

Lemma occurs_append (c : ascii) (a b : string) :
  occurs c (a ++ b) = occurs c a || occurs c b.
Proof.
  induction a as [|c' a IH]; simpl; [done|].
  by rewrite IH, orb_assoc.
Qed.

(** Two texts without [c], each followed by [c], are cut at the same
    place. *)
Lemma append_split (c : ascii) (a1 a2 b1 b2 : string) :
  occurs c a1 = false → occurs c a2 = false →
  a1 ++ String c b1 = a2 ++ String c b2 →
  a1 = a2 ∧ b1 = b2.
Proof.
  revert a2. induction a1 as [|x a1 IH]; intros [|y a2];
    cbn [String.append occurs]; intros H1 H2 Heq.
  - by injection Heq as <-.
  - injection Heq as <- _. by rewrite Ascii.eqb_refl in H2.
  - injection Heq as -> _. by rewrite Ascii.eqb_refl in H1.
  - injection Heq as <- Heq.
    apply orb_false_iff in H1 as [_ H1]. apply orb_false_iff in H2 as [_ H2].
    destruct (IH a2 H1 H2 Heq) as [-> ->]. done.
Qed.

Lemma concat_occurs (c : ascii) (l : list string) :
  Ascii.eqb c " " = false →
  Forall (λ s, occurs c s = false) l →
  occurs c (String.concat " " l) = false.
Proof.
  intros Hc. induction 1 as [|x l Hx Hl IH]; [done|].
  destruct l as [|y l]; [done|].
  change (String.concat " " (x :: y :: l))
    with (x ++ " " ++ String.concat " " (y :: l)).
  rewrite !occurs_append, Hx, IH. cbn [occurs]. by rewrite Hc.
Qed.

(** Header names that are tokens can be read back from their join. *)
Lemma concat_inj (l1 l2 : list string) :
  Forall header_token l1 → Forall header_token l2 →
  String.concat " " l1 = String.concat " " l2 →
  l1 = l2.
Proof.
  intros H1. revert l2.
  induction H1 as [|x l1 (Hx0 & Hxs & _) Hl1 IH]; intros l2 H2 Heq.
  - destruct H2 as [|y l2 (Hy0 & _) _]; [done|]. exfalso.
    destruct l2 as [|z l2]; cbn [String.concat] in Heq.
    + congruence.
    + destruct y; [done | discriminate Heq].
  - destruct H2 as [|y l2 (Hy0 & Hys & _) Hl2].
    { exfalso. destruct l1 as [|z l1]; cbn [String.concat] in Heq.
      - congruence.
      - destruct x; [done | discriminate Heq]. }
    destruct l1 as [|x' l1], l2 as [|y' l2].
    + cbn [String.concat] in Heq. by subst.
    + exfalso. change (String.concat " " [x]) with x in Heq.
      change (String.concat " " (y :: y' :: l2))
        with (y ++ " " ++ String.concat " " (y' :: l2)) in Heq.
      rewrite Heq, occurs_append in Hxs.
      apply orb_false_iff in Hxs as [_ Hxs]. simpl in Hxs. discriminate Hxs.
    + exfalso. change (String.concat " " [y]) with y in Heq.
      change (String.concat " " (x :: x' :: l1))
        with (x ++ " " ++ String.concat " " (x' :: l1)) in Heq.
      rewrite <- Heq, occurs_append in Hys.
      apply orb_false_iff in Hys as [_ Hys]. simpl in Hys. discriminate Hys.
    + change (String.concat " " (x :: x' :: l1))
        with (x ++ String " " (String.concat " " (x' :: l1))) in Heq.
      change (String.concat " " (y :: y' :: l2))
        with (y ++ String " " (String.concat " " (y' :: l2))) in Heq.
      destruct (append_split _ _ _ _ _ Hxs Hys Heq) as [-> Hrest].
      f_equal. by apply IH.
Qed.

(** The challenge tells the configuration: when the realms have no double
    quote and the required header names are tokens (not empty, without a
    space or a double quote), two instances that send the same
    [WWW-Authenticate] value have the same realm and the same list of
    required headers, in the same order. *)
Theorem authenticate_header_injective (self1 self2 : Env)
    (request1 request2 : HttpRequest) :
  occurs (ascii_of_nat 34) (www_authenticate_realm self1) = false →
  occurs (ascii_of_nat 34) (www_authenticate_realm self2) = false →
  Forall header_token (required_headers self1) →
  Forall header_token (required_headers self2) →
  authenticate_header self1 request1 = authenticate_header self2 request2 →
  www_authenticate_realm self1 = www_authenticate_realm self2
  ∧ required_headers self1 = required_headers self2.
Proof.
  intros Hr1 Hr2 Hh1 Hh2 Heq. unfold authenticate_header, dquote in Heq.
  apply append_cancel_l in Heq. cbn [String.append] in Heq.
  injection Heq as Heq.
  apply (append_split _ _ _ _ _ Hr1 Hr2) in Heq as [Hrealm Heq].
  split; [done|].
  apply (append_cancel_l ",headers=") in Heq. cbn [String.append] in Heq.
  injection Heq as Heq.
  assert (∀ l, Forall header_token l →
               occurs (ascii_of_nat 34) (String.concat " " l) = false) as Hq.
  { intros l Hl. apply concat_occurs; [done|].
    eapply Forall_impl; [exact Hl|]. by intros x (_ & _ & ?). }
  apply append_split in Heq as [Heq _]; [|by apply Hq..].
  by apply concat_inj.
Qed.

Lemma authenticate_header_injective_witness :
  www_authenticate_realm Runs.env = www_authenticate_realm Runs.nobody_env
  ∧ required_headers Runs.env = required_headers Runs.nobody_env.
Proof.
  apply (authenticate_header_injective Runs.env Runs.nobody_env
           Runs.valid_request Runs.expired_request).
  - reflexivity.
  - reflexivity.
  - repeat constructor; discriminate.
  - repeat constructor; discriminate.
  - reflexivity.
Defined.
